(** * peer.entity.forms: a shallow embedding of the form-validation code

    The Python module [peer/entity/forms.py] is embedded as Rocq functions:
    Python values as a tagged union, exceptions as an error result, the
    attributes of a form and the outside world (uploaded files, the requests
    sent with urllib2) as an explicit state threaded through a small
    state-and-error monad.  The collaborators that live outside the module
    (the network, the codec registry, [validate], [ugettext]) are the fields
    of an environment record. *)

From Stdlib Require Import ZArith Ascii.
From Stdlib Require String.
From stdpp Require Import base option list gmap strings functions pretty.

(** ** Python runtime values *)

Module Py.

(** Exception classes that the module names or that its callees raise.
    [OtherError] stands for any class unrelated to the named ones
    (socket.timeout, httplib.BadStatusLine, ...). *)
Inductive exn_class : Type :=
  | ValidationError
  | URLError
  | HTTPError
  | KeyError
  | IndexError
  | LookupError
  | UnicodeDecodeError
  | ValueError
  | TypeError
  | AttributeError
  | DoesNotExist
  | MultipleObjectsReturned
  | OtherError (name : string).

#[global] Instance exn_class_eq_dec : EqDecision exn_class.
Proof. solve_decision. Defined.

(** The direct base class, where it is one of the classes above:
    urllib2.HTTPError derives from urllib2.URLError; KeyError and IndexError
    derive from LookupError; UnicodeDecodeError derives from ValueError. *)
Definition base_class (c : exn_class) : option exn_class :=
  match c with
  | HTTPError => Some URLError
  | KeyError | IndexError => Some LookupError
  | UnicodeDecodeError => Some ValueError
  | _ => None
  end.

(** [issubclass c d]: the hierarchy above has depth one. *)
Definition issubclass (c d : exn_class) : bool :=
  bool_decide (c = d) || bool_decide (base_class c = Some d).

(** An exception instance: its class and [str(e)]. *)
Record exn : Type := Exn { exn_cls : exn_class; exn_str : string }.

Definition isinstance (e : exn) (c : exn_class) : bool :=
  issubclass (exn_cls e) c.

(** The result of running a piece of Python code. *)
Inductive result (A : Type) : Type :=
  | Ok (a : A)
  | Raise (e : exn).
Arguments Ok {A} a.
Arguments Raise {A} e.

(** A reference to an uploaded file object (object identity). *)
Definition file_ref : Type := nat.

(** The values that flow through the metadata forms: byte strings ([str]),
    text ([unicode]) and uploaded file objects.  A character is a code unit;
    text is restricted to code points below 256. *)
Inductive pyval : Type :=
  | PStr (s : string)
  | PUnicode (s : string)
  | PFile (ref : file_ref).

(** An uploaded file: django.core.files.base.File with a read position. *)
Record fileobj : Type := FileObj {
  file_name : string;
  file_content : string;
  file_pos : nat
}.

(** [str.isspace] on one byte. *)
Definition str_isspace (c : ascii) : bool :=
  let n := N_of_ascii c in
  ((9 <=? n) && (n <=? 13) || (n =? 32))%N.

(** [unicode.isspace] on one code point below 256. *)
Definition unicode_isspace (c : ascii) : bool :=
  let n := N_of_ascii c in
  ((9 <=? n) && (n <=? 13) || (28 <=? n) && (n <=? 32)
   || (n =? 133) || (n =? 160))%N.

Fixpoint drop_while {A} (p : A -> bool) (l : list A) : list A :=
  match l with
  | [] => []
  | x :: l' => if p x then drop_while p l' else l
  end.

(** [s.strip()]: whitespace removed at both ends. *)
Definition strip_chars (sp : ascii -> bool) (s : string) : string :=
  String.string_of_list_ascii
    (rev (drop_while sp (rev (drop_while sp (String.list_ascii_of_string s))))).

(** [hasattr(v, 'strip')] *)
Definition hasattr_strip (v : pyval) : bool :=
  match v with
  | PStr _ | PUnicode _ => true
  | PFile _ => false
  end.

(** [v.strip()], for a value that has the method. *)
Definition strip (v : pyval) : pyval :=
  match v with
  | PStr s => PStr (strip_chars str_isspace s)
  | PUnicode s => PUnicode (strip_chars unicode_isspace s)
  | PFile r => PFile r
  end.

Definition nonempty (s : string) : bool :=
  match s with
  | EmptyString => false
  | String _ _ => true
  end.

(** Truth value of an object: a string is true when it is not empty, a
    File when its name is not empty (File.__nonzero__). *)
Definition truthy (files : file_ref -> fileobj) (v : pyval) : bool :=
  match v with
  | PStr s | PUnicode s => nonempty s
  | PFile r => nonempty (file_name (files r))
  end.

Definition is_ascii (s : string) : bool :=
  forallb (fun c => (N_of_ascii c <? 128)%N) (String.list_ascii_of_string s).

(** [a == b].  A byte string and a text compare equal when the bytes are
    ASCII and spell the text; a byte string that does not decode as ASCII
    is unequal to every text.  File objects compare by identity. *)
Definition py_eq (a b : pyval) : bool :=
  match a, b with
  | PStr x, PStr y | PUnicode x, PUnicode y => String.eqb x y
  | PStr x, PUnicode y | PUnicode y, PStr x => is_ascii x && String.eqb x y
  | PFile r, PFile r' => Nat.eqb r r'
  | _, _ => false
  end.

(** [sub in s] on strings. *)
Fixpoint contains (sub s : string) : bool :=
  String.prefix sub s ||
  match s with
  | EmptyString => false
  | String _ s' => contains sub s'
  end.

(** [s.split(sep)] for a non-empty [sep], scanning left to right: [skip]
    counts the characters of a separator still to be passed over, [cur] is
    the piece being collected. *)
Fixpoint split_go (sep : string) (skip : nat) (cur s : string) : list string :=
  match s with
  | EmptyString => [cur]
  | String c s' =>
      match skip with
      | S k => split_go sep k cur s'
      | O =>
          if String.prefix sep s
          then cur :: split_go sep (String.length sep - 1) "" s'
          else split_go sep 0 (cur +:+ String c "") s'
      end
  end.

Definition split (sep s : string) : list string := split_go sep 0 "" s.

(** How [text.decode(encoding)] fails: the encoding is not registered
    (LookupError), the codec rejects the bytes (UnicodeDecodeError), or the
    codec raises an exception of a class of its own. *)
Inductive decode_failure : Type :=
  | UnknownEncoding
  | Undecodable
  | CodecFailure (class_name : string).

(** The outcome of [text.decode(encoding)]: text for a character
    encoding, a byte string for a codec such as base64. *)
Inductive decoded : Type :=
  | Decoded (v : pyval)
  | DecodeFails (f : decode_failure) (message : string).

Definition decode_result (d : decoded) : result pyval :=
  match d with
  | Decoded v => Ok v
  | DecodeFails UnknownEncoding message => Raise (Exn LookupError message)
  | DecodeFails Undecodable message => Raise (Exn UnicodeDecodeError message)
  | DecodeFails (CodecFailure name) message =>
      Raise (Exn (OtherError name) message)
  end.

(** [l[i]] *)
Definition getitem {A} (l : list A) (i : nat) : result A :=
  match l !! i with
  | Some x => Ok x
  | None => Raise (Exn IndexError "list index out of range")
  end.

(** [v != n] where [v] is an integer or None. *)
Definition ne_int (v : option Z) (n : Z) : bool :=
  match v with
  | Some m => negb (m =? n)%Z
  | None => true
  end.

(** ['%d' % v] where [v] is an integer or None. *)
Definition percent_d (v : option Z) : result string :=
  match v with
  | Some n => Ok (pretty n)
  | None =>
      Raise (Exn TypeError "%d format: a number is required, not NoneType")
  end.

End Py.
Import Py.

(** ** Exceptions and state: the monads of the embedding *)

#[global] Instance result_ret : MRet result := fun A a => Ok a.
#[global] Instance result_bind : MBind result := fun A B f m =>
  match m with
  | Ok a => f a
  | Raise e => Raise e
  end.

#[global] Instance result_fmap : FMap result := fun A B f m =>
  match m with
  | Ok a => Ok (f a)
  | Raise e => Raise e
  end.

(** One clause of a [try] statement: the classes it names ([None] for a
    bare [except:]) and its handler. *)
Definition except_clause (R : Type) : Type :=
  option (list exn_class) * (exn -> R).

Definition clause_matches (classes : option (list exn_class)) (e : exn)
    : bool :=
  match classes with
  | None => true
  | Some cs => existsb (isinstance e) cs
  end.

(** The clauses are tried in the order they are written; an exception that
    no clause matches propagates ([reraise]). *)
Fixpoint handle {R} (reraise : exn -> R) (clauses : list (except_clause R))
    (e : exn) : R :=
  match clauses with
  | [] => reraise e
  | (classes, handler) :: rest =>
      if clause_matches classes e then handler e
      else handle reraise rest e
  end.

Definition try_except {A} (body : result A)
    (clauses : list (except_clause (result A))) : result A :=
  match body with
  | Ok a => Ok a
  | Raise e => handle Raise clauses e
  end.

(** ** The data model the forms see *)

Definition User : Type := nat.

Record Domain : Type := {
  domain_id : nat;
  domain_owner : User;
  domain_team : list User
}.

(** An entity row: its name, the domain it belongs to, and the current
    revision of its metadata, what [entity.metadata.get_revision()]
    returns. *)
Record Entity : Type := {
  entity_name : string;
  entity_domain : nat;
  entity_revision : pyval
}.

Definition get_revision (entity : Entity) : pyval := entity_revision entity.

(** The response object that [urllib2.urlopen] returns: [getcode()] (None
    when the URL is not an HTTP one), [headers] keyed by lower-case name,
    and the body that [read()] returns. *)
Record response : Type := {
  getcode : option Z;
  headers : gmap string string;
  body : string
}.

(** [resp.headers[name]] *)
Definition headers_getitem (resp : response) (name : string) : result string :=
  match headers resp !! name with
  | Some v => Ok v
  | None => Raise (Exn KeyError name)
  end.

(** What the module calls but does not define. *)
Record environment : Type := {
  (** the outcome of [urllib2.urlopen(url, data, timeout)] *)
  net : string -> option string -> Z -> result response;
  (** [text.decode(encoding)], from the bytes and the encoding's name *)
  decode : string -> string -> decoded;
  (** [peer.entity.validation.validate(entity, metadata, user)] *)
  validate : Entity -> pyval -> User -> list string;
  (** [django.utils.translation.ugettext] *)
  ugettext : string -> string;
  (** the rows of the Entity table *)
  entities : list Entity
}.

(** A metadata form ([self]: entity, user, metadata, cleaned_data, _errors)
    together with the part of the world its methods change: the uploaded
    file objects and the requests made so far, oldest first. *)
Record state : Type := State {
  entity : Entity;
  user : User;
  metadata : option pyval;
  cleaned_data : gmap string pyval;
  _errors : gmap string (list string);
  files : file_ref -> fileobj;
  requests : list (string * option string * Z)
}.

(** A method of a metadata form: it may raise, and what it did to the
    state before raising stays done. *)
Definition M (A : Type) : Type := state -> result A * state.

#[global] Instance M_ret : MRet M := fun A a st => (Ok a, st).
#[global] Instance M_bind : MBind M := fun A B f m st =>
  match m st with
  | (Ok a, st') => f a st'
  | (Raise e, st') => (Raise e, st')
  end.

Definition raise {A} (e : exn) : M A := fun st => (Raise e, st).

Definition lift {A} (r : result A) : M A := fun st => (r, st).

Definition gets {A} (f : state -> A) : M A := fun st => (Ok (f st), st).

Definition modify (f : state -> state) : M unit := fun st => (Ok tt, f st).

Definition try_exceptM {A} (body : M A)
    (clauses : list (except_clause (M A))) : M A := fun st =>
  match body st with
  | (Ok a, st') => (Ok a, st')
  | (Raise e, st') => handle raise clauses e st'
  end.

Definition set_metadata (v : option pyval) (st : state) : state :=
  State (entity st) (user st) v (cleaned_data st) (_errors st)
        (files st) (requests st).

Definition set_cleaned_data (cd : gmap string pyval) (st : state) : state :=
  State (entity st) (user st) (metadata st) cd (_errors st)
        (files st) (requests st).

Definition set_errors (errs : gmap string (list string)) (st : state) : state :=
  State (entity st) (user st) (metadata st) (cleaned_data st) errs
        (files st) (requests st).

Definition set_files (fs : file_ref -> fileobj) (st : state) : state :=
  State (entity st) (user st) (metadata st) (cleaned_data st) (_errors st)
        fs (requests st).

Definition add_request (rq : string * option string * Z) (st : state) : state :=
  State (entity st) (user st) (metadata st) (cleaned_data st) (_errors st)
        (files st) (requests st ++ [rq]).

Definition validation_error {A} (message : string) : M A :=
  raise (Exn ValidationError message).

(** ** forms.py, lines 44-101: the entity forms *)

(** [self.cleaned_data] of an entity form, read with [.get]: a field that
    did not validate is absent.  The form's fields make [name] a text and
    [domain] a Domain. *)
Record entity_cleaned_data : Type := {
  cd_name : option string;
  cd_domain : option Domain
}.

(** The characters of [r'!:&\|'], in the order the loop visits them. *)
Definition reserved : list ascii := String.list_ascii_of_string "!:&\|".

Definition illegal_characters : string :=
  "Illegal characters in the name: You cannot use &, |, !, : or \".

Definition already_exists : string :=
  "There is already an entity with that name for that domain".

(** [for ch in r'!:&\|': if ch in name: raise forms.ValidationError(...)] *)
Fixpoint check_characters (env : environment) (chars : list ascii)
    (name : string) : result unit :=
  match chars with
  | [] => Ok tt
  | ch :: rest =>
      if contains (String ch "") name
      then Raise (Exn ValidationError (ugettext env illegal_characters))
      else check_characters env rest name
  end.

(** The rows that [Entity.objects.filter(name=name, domain=domain)]
    selects. *)
Definition matching (env : environment) (name : string) (domain : Domain)
    : list Entity :=
  List.filter
    (fun e => String.eqb (entity_name e) name
              && Nat.eqb (entity_domain e) (domain_id domain))
    (entities env).

(** [Entity.objects.get(name=name, domain=domain)] *)
Definition Entity_objects_get (env : environment) (name : string)
    (domain : Domain) : result Entity :=
  match matching env name domain with
  | [] => Raise (Exn DoesNotExist "Entity matching query does not exist.")
  | [e] => Ok e
  | _ :: _ :: _ =>
      Raise (Exn MultipleObjectsReturned
               "get() returned more than one Entity")
  end.

Module EditEntityForm.

Definition clean (env : environment) (cleaned_data : entity_cleaned_data)
    : result entity_cleaned_data :=
  let name := cd_name cleaned_data in
  match name with
  | Some name =>
      if nonempty name
      then _ ← check_characters env reserved name; Ok cleaned_data
      else Ok cleaned_data
  | None => Ok cleaned_data
  end.

End EditEntityForm.

(** A row of the Domain table as the queryset of the [domain] field sees
    it: the domain and its [validated] column. *)
Record DomainRow : Type := {
  row_domain : Domain;
  row_validated : bool
}.

#[global] Instance Domain_eq_dec : EqDecision Domain.
Proof. solve_decision. Defined.

#[global] Instance DomainRow_eq_dec : EqDecision DomainRow.
Proof. solve_decision. Defined.

(** [user in domain.team.all()] *)
Definition in_team (user : User) (domain : Domain) : bool :=
  existsb (Nat.eqb user) (domain_team domain).

Module EntityForm.

(** [__init__]: the queryset of the [domain] field after
    [.filter(Q(owner=self.user, validated=True) |
             Q(team=self.user, validated=True)).distinct()], each
    selected domain once. *)
Definition domain_queryset (user : User) (queryset : list DomainRow)
    : list DomainRow :=
  remove_dups
    (List.filter
       (fun row =>
          Nat.eqb (domain_owner (row_domain row)) user && row_validated row
          || in_team user (row_domain row) && row_validated row)
       queryset).

Definition clean_domain (env : environment) (user : User)
    (cleaned_data : entity_cleaned_data) : result (option Domain) :=
  let domain := cd_domain cleaned_data in
  match domain with
  | Some d =>
      if negb (Nat.eqb (domain_owner d) user) && negb (in_team user d)
      then Raise (Exn ValidationError
                    (ugettext env "You cannot use this domain"))
      else Ok domain
  | None => Ok domain
  end.

Definition clean (env : environment) (cleaned_data : entity_cleaned_data)
    : result entity_cleaned_data :=
  let name := cd_name cleaned_data in
  let domain := cd_domain cleaned_data in
  match name, domain with
  | Some name, Some domain =>
      if nonempty name
      then
        _ ← check_characters env reserved name;
        _ ← try_except
              (_ ← Entity_objects_get env name domain;
               Raise (Exn ValidationError (ugettext env already_exists)))
              [ (Some [DoesNotExist], fun _ => Ok tt) ];
        Ok cleaned_data
      else Ok cleaned_data
  | _, _ => Ok cleaned_data
  end.

End EntityForm.

(** ** forms.py, lines 132-143: the two checks on new metadata *)

Definition check_metadata_is_new (entity : Entity) (new_metadata : pyval)
    : M unit :=
  let old_metadata := get_revision entity in
  if py_eq old_metadata new_metadata
  then validation_error "There are no changes in the metadata"
  else mret tt.

(** [del form.cleaned_data[field]] *)
Definition del_cleaned_data (field : string) : M unit := fun st =>
  match cleaned_data st !! field with
  | Some _ => (Ok tt, set_cleaned_data (delete field (cleaned_data st)) st)
  | None => (Raise (Exn KeyError field), st)
  end.

(** The form is the state; [form.error_class(errors)] is the list itself. *)
Definition check_metadata_is_valid (env : environment) (entity : Entity)
    (user : User) (new_metadata : pyval) (field : string) : M unit :=
  let errors := validate env entity new_metadata user in
  match errors with
  | _ :: _ =>
      _ ← modify (fun st => set_errors (<[field := errors]> (_errors st)) st);
      del_cleaned_data field
  | [] => mret tt
  end.

(** ** What [save] calls *)

(** [authorname(user)], [entity.metadata.name], and the name that
    [NamedTemporaryFile] picks. *)
Record collaborators : Type := {
  authorname : User -> string;
  metadata_name : Entity -> string;
  tmp_name : string
}.

(** The two calls that change the stored data:
    [entity.metadata.save(name, content, username, commit_msg)] and
    [entity.save()]. *)
Inductive effect : Type :=
  | MetadataSave (name : string) (content : fileobj) (username : string)
      (commit_msg : string)
  | EntitySave (entity : Entity).

(** A method that makes such calls: the calls made so far, oldest first,
    are threaded through. *)
Definition Saving (A : Type) : Type := list effect -> result A * list effect.

#[global] Instance Saving_ret : MRet Saving := fun A a log => (Ok a, log).
#[global] Instance Saving_bind : MBind Saving := fun A B f m log =>
  match m log with
  | (Ok a, log') => f a log'
  | (Raise e, log') => (Raise e, log')
  end.

Definition call (c : effect) : Saving unit := fun log => (Ok tt, log ++ [c]).

Definition attempt {A} (r : result A) : Saving A := fun log => (r, log).

(** The UTF-8 bytes of one code point below 256. *)
Definition utf8_char (c : ascii) : list ascii :=
  let n := N_of_ascii c in
  if (n <? 128)%N then [c]
  else [ascii_of_N (192 + n / 64); ascii_of_N (128 + n mod 64)].

Definition utf8 (s : string) : string :=
  String.string_of_list_ascii
    (flat_map utf8_char (String.list_ascii_of_string s)).

(** [v.encode('utf8')]: a byte string is first decoded as ASCII, which
    fails on a byte above 127; a file object has no such method. *)
Definition encode_utf8 (v : pyval) : result string :=
  match v with
  | PUnicode s => Ok (utf8 s)
  | PStr s =>
      if is_ascii s then Ok (utf8 s)
      else Raise (Exn UnicodeDecodeError "'ascii' codec can't decode byte")
  | PFile _ => Raise (Exn AttributeError "object has no attribute 'encode'")
  end.

(** [tmp.write(data)] on a file object. *)
Definition fileobj_write (f : fileobj) (data : string) : fileobj :=
  let before :=
    String.string_of_list_ascii
      (take (file_pos f) (String.list_ascii_of_string (file_content f))) in
  let after :=
    String.string_of_list_ascii
      (drop (file_pos f + String.length data)
         (String.list_ascii_of_string (file_content f))) in
  FileObj (file_name f) (before +:+ data +:+ after)
    (file_pos f + String.length data).

(** [tmp.seek(pos)] on a file object. *)
Definition fileobj_seek (f : fileobj) (pos : nat) : fileobj :=
  FileObj (file_name f) (file_content f) pos.

(** ** forms.py, lines 146-198: BaseMetadataEditForm *)

(** [self.cleaned_data[fieldname]] *)
Definition cleaned_data_getitem (fieldname : string) : M pyval := fun st =>
  match cleaned_data st !! fieldname with
  | Some v => (Ok v, st)
  | None => (Raise (Exn KeyError fieldname), st)
  end.

(** [not v] *)
Definition py_not (v : pyval) : M bool :=
  gets (fun st => negb (truthy (files st) v)).

Module BaseMetadataEditForm.

(** The method takes the [_field_value_to_metadata] of the class of
    [self]: the subclasses override it. *)
Definition _clean_metadata_field (env : environment)
    (_field_value_to_metadata : pyval -> M pyval) (fieldname : string)
    : M pyval :=
  data ← cleaned_data_getitem fieldname;
  let data := if hasattr_strip data then strip data else data in
  empty ← py_not data;
  if (empty : bool) then validation_error "Empty metadata is not allowed"
  else
    metadata ← _field_value_to_metadata data;
    empty ← py_not metadata;
    if (empty : bool) then validation_error "Empty metadata is not allowed"
    else
      self_entity ← gets entity;
      self_user ← gets user;
      _ ← check_metadata_is_new self_entity metadata;
      _ ← check_metadata_is_valid env self_entity self_user metadata
            fieldname;
      _ ← modify (set_metadata (Some metadata));
      mret data.

Definition _field_value_to_metadata (field_value : pyval) : M pyval :=
  mret field_value.

Definition get_metadata (self : state) : option pyval := metadata self.

(** [type] is the class attribute of the subclass of [self]. *)
Definition save (ext : collaborators) (type : string) (self : state)
    : Saving unit :=
  let tmp := FileObj (tmp_name ext) "" 0 in
  data ← attempt (match metadata self with
                  | Some v => encode_utf8 v
                  | None =>
                      Raise (Exn AttributeError
                               "'NoneType' object has no attribute 'encode'")
                  end);
  let tmp := fileobj_write tmp data in
  let tmp := fileobj_seek tmp 0 in
  let content := tmp in
  let name := metadata_name ext (entity self) in
  let username := authorname ext (user self) in
  commit_msg ← attempt
                 (match cleaned_data self !! ("commit_msg_" +:+ type) with
                  | Some v => encode_utf8 v
                  | None => Raise (Exn KeyError ("commit_msg_" +:+ type))
                  end);
  _ ← call (MetadataSave name content username commit_msg);
  call (EntitySave (entity self)).

End BaseMetadataEditForm.

(** ** The field values of the subclasses *)

(** [fileobj.read()]: what lies after the read position, which moves to
    the end. *)
Definition file_read (r : file_ref) : M string := fun st =>
  let f := files st r in
  (Ok (String.string_of_list_ascii
         (drop (file_pos f) (String.list_ascii_of_string (file_content f)))),
   set_files
     (<[r := FileObj (file_name f) (file_content f)
               (String.length (file_content f))]> (files st)) st).

(** [fileobj.seek(pos)] *)
Definition file_seek (r : file_ref) (pos : nat) : M unit := fun st =>
  let f := files st r in
  (Ok tt,
   set_files (<[r := FileObj (file_name f) (file_content f) pos]> (files st))
     st).

(** The file field hands the method a file object; a string has no [read]
    method. *)
Definition on_file (method : file_ref -> M pyval) (field_value : pyval)
    : M pyval :=
  match field_value with
  | PFile r => method r
  | PStr _ | PUnicode _ =>
      raise (Exn AttributeError "object has no attribute 'read'")
  end.

(** The URL field hands the method a string; a file object cannot be
    concatenated to ['http://']. *)
Definition on_text (method : string -> M pyval) (field_value : pyval)
    : M pyval :=
  match field_value with
  | PStr s | PUnicode s => method s
  | PFile _ =>
      raise (Exn TypeError "cannot concatenate 'str' and 'File' objects")
  end.

(** ** forms.py, lines 200-213: MetadataTextEditForm *)

Module MetadataTextEditForm.

Definition clean_metadata_text (env : environment) : M pyval :=
  BaseMetadataEditForm._clean_metadata_field env
    BaseMetadataEditForm._field_value_to_metadata "metadata_text".

End MetadataTextEditForm.

(** ** forms.py, lines 216-234: MetadataFileEditForm *)

Module MetadataFileEditForm.

Definition _field_value_to_metadata (fileobj : file_ref) : M pyval :=
  data ← file_read fileobj;
  _ ← file_seek fileobj 0;
  mret (PStr data).

Definition clean_metadata_file (env : environment) : M pyval :=
  BaseMetadataEditForm._clean_metadata_field env
    (on_file _field_value_to_metadata) "metadata_file".

End MetadataFileEditForm.

(** ** forms.py, lines 237-287: MetadataRemoteEditForm *)

Definition CONNECTION_TIMEOUT : Z := 10.

(** [urllib2.urlopen(url, data, timeout)]: the request is made, then the
    network decides. *)
Definition urlopen (env : environment) (url : string) (data : option string)
    (timeout : Z) : M response := fun st =>
  (net env url data timeout, add_request (url, data, timeout) st).

Module MetadataRemoteEditForm.

(** The inner function of [_field_value_to_metadata].  The first [try]
    yields the response, or [None] where the bare [except] returns None
    from the function. *)
Definition _fetch_metadata (env : environment) (url : string)
    : M (option pyval) :=
  resp ← try_exceptM
           (resp ← urlopen env url None CONNECTION_TIMEOUT; mret (Some resp))
           [ (Some [URLError], fun e =>
                validation_error ("URL Error: " +:+ exn_str e));
             (Some [HTTPError], fun e =>
                validation_error ("HTTP Error: " +:+ exn_str e));
             (None, fun _ => mret None) ];
  match resp with
  | None => mret None
  | Some resp =>
      if ne_int (getcode resp) 200%Z
      then
        code ← lift (percent_d (getcode resp));
        validation_error ("Error in the response: " +:+ code)
      else
        let text := PStr (body resp) in
        text ← try_exceptM
                 (lift
                    (content_type ← headers_getitem resp "content-type";
                     encoding ← getitem (split "charset=" content_type) 1;
                     decode_result (decode env (body resp) encoding)))
                 [ (Some [KeyError; IndexError], fun _ => mret text) ];
        mret (Some text)
  end.

Definition _field_value_to_metadata (env : environment) (remote_url : string)
    : M pyval :=
  data ← _fetch_metadata env remote_url;
  match data with
  | Some data => mret data
  | None =>
      data ← _fetch_metadata env ("http://" +:+ remote_url);
      match data with
      | Some data => mret data
      | None => validation_error "Unknown error while fetching the url"
      end
  end.

Definition clean_metadata_url (env : environment) : M pyval :=
  BaseMetadataEditForm._clean_metadata_field env
    (on_text (_field_value_to_metadata env)) "metadata_url".

End MetadataRemoteEditForm.

(** ** The three subclasses, side by side *)

Variant metadata_form : Type := TextForm | FileForm | RemoteForm.

(** The metadata field of each subclass. *)
Definition field_of (form : metadata_form) : string :=
  match form with
  | TextForm => "metadata_text"
  | FileForm => "metadata_file"
  | RemoteForm => "metadata_url"
  end.

(** The [_field_value_to_metadata] that [self] resolves to in each
    subclass. *)
Definition method_of (env : environment) (form : metadata_form)
    : pyval -> M pyval :=
  match form with
  | TextForm => BaseMetadataEditForm._field_value_to_metadata
  | FileForm => on_file MetadataFileEditForm._field_value_to_metadata
  | RemoteForm => on_text (MetadataRemoteEditForm._field_value_to_metadata env)
  end.

(** The [clean_<field>] method of each subclass. *)
Definition clean_metadata (env : environment) (form : metadata_form)
    : M pyval :=
  match form with
  | TextForm => MetadataTextEditForm.clean_metadata_text env
  | FileForm => MetadataFileEditForm.clean_metadata_file env
  | RemoteForm => MetadataRemoteEditForm.clean_metadata_url env
  end.

(** The [type] attribute of each subclass. *)
Definition type_of (form : metadata_form) : string :=
  match form with
  | TextForm => "text"
  | FileForm => "file"
  | RemoteForm => "remote"
  end.

(** [save()] on an instance of each subclass. *)
Definition save_of (ext : collaborators) (form : metadata_form)
    (self : state) : Saving unit :=
  BaseMetadataEditForm.save ext (type_of form) self.

(** The field value as [_clean_metadata_field] passes it on: stripped when
    it has a [strip] method. *)
Definition stripped (data : pyval) : pyval :=
  if hasattr_strip data then strip data else data.

Definition empty_metadata : exn :=
  Exn ValidationError "Empty metadata is not allowed".

Definition no_changes : exn :=
  Exn ValidationError "There are no changes in the metadata".

(** An exception that neither of the first two clauses of
    [_fetch_metadata] names. *)
Definition general_error (e : exn) : Prop :=
  isinstance e URLError = false /\ isinstance e HTTPError = false.

(** A string made of whitespace only (the empty string included). *)
Definition whitespace_only (v : pyval) : bool :=
  match v with
  | PStr s => forallb str_isspace (String.list_ascii_of_string s)
  | PUnicode s => forallb unicode_isspace (String.list_ascii_of_string s)
  | PFile _ => false
  end.

(** An empty string, of either kind. *)
Definition empty_content (v : pyval) : Prop := v = PStr "" \/ v = PUnicode "".

(** [name] holds one of the reserved characters. *)
Definition has_reserved (name : string) : bool :=
  existsb (fun ch => contains (String ch "") name) reserved.

(** The part of a form that its own methods assign: [metadata],
    [cleaned_data] and [_errors]. *)
Definition same_form (st st' : state) : Prop :=
  metadata st' = metadata st
  /\ cleaned_data st' = cleaned_data st
  /\ _errors st' = _errors st.

(** What a method may do to the world around the form: the entity and the
    user stay, every file keeps its name and content (the read position
    may move), and requests are only added, at most two, each without data
    and with the fixed timeout. *)
Definition world_kept (st st' : state) : Prop :=
  entity st' = entity st
  /\ user st' = user st
  /\ (forall r, file_name (files st' r) = file_name (files st r)
                /\ file_content (files st' r) = file_content (files st r))
  /\ exists new,
       requests st' = requests st ++ new
       /\ length new <= 2
       /\ Forall (fun rq => rq.1.2 = None /\ rq.2 = CONNECTION_TIMEOUT) new.

(** ** Sample worlds, for the instances below *)

Module Sample.

Definition domain1 : Domain :=
  {| domain_id := 1; domain_owner := 7; domain_team := [8] |}.

(** An entity with metadata, and one that has none yet. *)
Definition idp : Entity :=
  {| entity_name := "idp";
     entity_domain := 1;
     entity_revision := PStr "<old/>" |}.

Definition fresh : Entity :=
  {| entity_name := "fresh"; entity_domain := 1; entity_revision := PStr "" |}.

(** An entity whose name holds a reserved character. *)
Definition legacy : Entity :=
  {| entity_name := "a!b";
     entity_domain := 1;
     entity_revision := PStr "<old/>" |}.

(** A codec registry that holds the ascii codec and nothing else. *)
Definition ascii_only (bytes encoding : string) : decoded :=
  if String.eqb encoding "ascii"
  then if is_ascii bytes then Decoded (PUnicode bytes)
       else DecodeFails Undecodable "'ascii' codec can't decode byte"
  else DecodeFails UnknownEncoding ("unknown encoding: " +:+ encoding).

(** A validator that accepts everything, and one that rejects everything. *)
Definition accept : Entity -> pyval -> User -> list string := fun _ _ _ => [].

Definition reject : Entity -> pyval -> User -> list string :=
  fun _ _ _ => ["Not a valid XML document"; "Missing entityID"].

Definition world (net : string -> option string -> Z -> result response)
    (validate : Entity -> pyval -> User -> list string) : environment :=
  {| net := net;
     decode := ascii_only;
     validate := validate;
     ugettext := fun message => message;
     entities := [idp; legacy] |}.

Definition offline : string -> option string -> Z -> result response :=
  fun _ _ _ => Raise (Exn (OtherError "socket.timeout") "timed out").

(** A network that serves one response at one URL; any other URL is an
    unknown URL type (ValueError), what urllib2 raises for a URL without
    a scheme. *)
Definition serves (url : string) (resp : response)
    : string -> option string -> Z -> result response :=
  fun u _ _ =>
    if String.eqb u url then Ok resp
    else Raise (Exn ValueError ("unknown url type: " +:+ u)).

(** A network on which every request meets an exception of one class. *)
Definition fails_with (cls : exn_class) (message : string)
    : string -> option string -> Z -> result response :=
  fun _ _ _ => Raise (Exn cls message).

Definition no_files : file_ref -> fileobj := fun _ => FileObj "" "" 0.

(** One uploaded file, under reference 0. *)
Definition upload (name content : string) : file_ref -> fileobj :=
  <[0 := FileObj name content 0]> no_files.

(** A bound form of user 7 on [entity], before its metadata field is
    cleaned. *)
Definition form (entity : Entity) (cleaned_data : gmap string pyval)
    (files : file_ref -> fileobj) : state :=
  State entity 7 None cleaned_data ∅ files [].

Definition xml_response (content_type : option string) (body : string)
    : response :=
  {| getcode := Some 200%Z;
     headers := match content_type with
                | Some v => {[ "content-type" := v ]}
                | None => ∅
                end;
     body := body |}.

Definition status_response (code : Z) : response :=
  {| getcode := Some code; headers := ∅; body := "" |}.

(** The collaborators of [save]. *)
Definition ext : collaborators :=
  {| authorname := fun user => if Nat.eqb user 7 then "Ada" else "someone";
     metadata_name := fun entity => entity_name entity +:+ ".xml";
     tmp_name := "/tmp/tmpA1" |}.

(** Three rows of the Domain table: one validated and owned by user 7,
    one validated with 7 in its team, one owned by 7 and not validated. *)
Definition shared : Domain :=
  {| domain_id := 2; domain_owner := 9; domain_team := [7; 8] |}.

Definition pending : Domain :=
  {| domain_id := 3; domain_owner := 7; domain_team := [] |}.

Definition domains : list DomainRow :=
  [ {| row_domain := domain1; row_validated := true |};
    {| row_domain := shared; row_validated := true |};
    {| row_domain := pending; row_validated := false |} ].

End Sample.

(** * Properties *)

(** ** Strings *)

Lemma drop_while_all {A} (p : A -> bool) (l : list A) :
  forallb p l = true -> drop_while p l = [].
Proof.
  induction l as [|x l IH]; simpl; [done|].
  intros [Hx Hl]%andb_prop. rewrite Hx. auto.
Qed.

Lemma strip_chars_blank sp s :
  forallb sp (String.list_ascii_of_string s) = true -> strip_chars sp s = "".
Proof.
  intros H. unfold strip_chars. rewrite (drop_while_all _ _ H). reflexivity.
Qed.

Lemma whitespace_only_stripped files v :
  whitespace_only v = true -> truthy files (stripped v) = false.
Proof.
  destruct v as [s|s|r]; simpl; [| |discriminate];
    intros H; by rewrite strip_chars_blank.
Qed.

Lemma empty_content_falsy files v : empty_content v -> truthy files v = false.
Proof. intros [-> | ->]; reflexivity. Qed.

Lemma append_empty_r s : s +:+ "" = s.
Proof.
  induction s as [|c s IH]; [reflexivity|].
  change (String c (s +:+ "") = String c s). congruence.
Qed.

Lemma append_cons_assoc a c b : (a +:+ String c "") +:+ b = a +:+ String c b.
Proof.
  induction a as [|x a IH]; [reflexivity|].
  change (String x ((a +:+ String c "") +:+ b) = String x (a +:+ String c b)).
  congruence.
Qed.

Lemma split_go_not_nil sep skip cur s : split_go sep skip cur s <> [].
Proof.
  revert skip cur. induction s as [|c s IH]; intros skip cur; cbn [split_go].
  - discriminate.
  - destruct skip; [|apply IH].
    destruct (String.prefix sep (String c s)); [discriminate|apply IH].
Qed.

(** Without the separator, [split] returns the string whole. *)
Lemma split_go_absent sep cur s :
  contains sep s = false -> split_go sep 0 cur s = [cur +:+ s].
Proof.
  revert cur. induction s as [|c s IH]; intros cur H.
  - simpl. by rewrite append_empty_r.
  - cbn [contains] in H. apply orb_false_elim in H as [Hp Hc].
    cbn [split_go]. rewrite Hp. rewrite IH by done.
    by rewrite append_cons_assoc.
Qed.

(** With the separator, [split] returns two pieces at least. *)
Lemma split_go_present sep cur s :
  sep <> "" -> contains sep s = true ->
  exists before piece rest, split_go sep 0 cur s = before :: piece :: rest.
Proof.
  intros Hsep. revert cur. induction s as [|c s IH]; intros cur H.
  - cbn [contains] in H. destruct sep; [done|]. simpl in H. done.
  - cbn [contains] in H. cbn [split_go].
    destruct (String.prefix sep (String c s)) eqn:Hp.
    + destruct (split_go sep (String.length sep - 1) "" s)
        as [|piece rest] eqn:E.
      * by apply split_go_not_nil in E.
      * by exists cur, piece, rest.
    + simpl in H. by apply IH.
Qed.

Lemma contains_nonempty ch name :
  contains (String ch "") name = true -> nonempty name = true.
Proof. destruct name; [discriminate|reflexivity]. Qed.

(** ** The generic cleaning method, outcome by outcome *)

Section CleanField.
Context (env : environment) (fvm : pyval -> M pyval) (field : string).
#[local] Abbreviation clean :=
  (BaseMetadataEditForm._clean_metadata_field env fvm field).

Ltac run_clean :=
  unfold BaseMetadataEditForm._clean_metadata_field, mbind, M_bind,
    cleaned_data_getitem, py_not, gets, validation_error, raise, stripped in *.

Lemma clean_field_missing st :
  cleaned_data st !! field = None ->
  clean st = (Raise (Exn KeyError field), st).
Proof. intros H. run_clean. rewrite H. reflexivity. Qed.

Lemma clean_field_empty_value st raw :
  cleaned_data st !! field = Some raw ->
  truthy (files st) (stripped raw) = false ->
  clean st = (Raise empty_metadata, st).
Proof.
  intros H1 H2. run_clean. rewrite H1. simpl. rewrite H2. reflexivity.
Qed.

Lemma clean_field_method_raises st raw e st1 :
  cleaned_data st !! field = Some raw ->
  truthy (files st) (stripped raw) = true ->
  fvm (stripped raw) st = (Raise e, st1) ->
  clean st = (Raise e, st1).
Proof.
  intros H1 H2 H3. run_clean. rewrite H1. simpl. rewrite H2. simpl.
  rewrite H3. reflexivity.
Qed.

Lemma clean_field_empty_metadata st raw m st1 :
  cleaned_data st !! field = Some raw ->
  fvm (stripped raw) st = (Ok m, st1) ->
  truthy (files st1) m = false ->
  clean st = (Raise empty_metadata, st1)
  \/ clean st = (Raise empty_metadata, st).
Proof.
  intros H1 H3 H4. destruct (truthy (files st) (stripped raw)) eqn:H2.
  - left. run_clean. rewrite H1. simpl. rewrite H2. simpl.
    rewrite H3. rewrite H4. reflexivity.
  - right. by eapply clean_field_empty_value.
Qed.

Lemma clean_field_unchanged st raw m st1 :
  cleaned_data st !! field = Some raw ->
  truthy (files st) (stripped raw) = true ->
  fvm (stripped raw) st = (Ok m, st1) ->
  truthy (files st1) m = true ->
  py_eq (get_revision (entity st1)) m = true ->
  clean st = (Raise no_changes, st1).
Proof.
  intros H1 H2 H3 H4 H5. run_clean. rewrite H1. simpl. rewrite H2. simpl.
  rewrite H3, H4. simpl.
  unfold check_metadata_is_new. rewrite H5. reflexivity.
Qed.

Lemma clean_field_validated st raw m st1 :
  cleaned_data st !! field = Some raw ->
  truthy (files st) (stripped raw) = true ->
  fvm (stripped raw) st = (Ok m, st1) ->
  truthy (files st1) m = true ->
  py_eq (get_revision (entity st1)) m = false ->
  validate env (entity st1) m (user st1) = [] ->
  clean st = (Ok (stripped raw), set_metadata (Some m) st1).
Proof.
  intros H1 H2 H3 H4 H5 H6. run_clean. rewrite H1. simpl. rewrite H2. simpl.
  rewrite H3, H4. simpl.
  unfold check_metadata_is_new. rewrite H5. simpl.
  unfold check_metadata_is_valid. rewrite H6. reflexivity.
Qed.

Lemma clean_field_invalid st raw m st1 v :
  cleaned_data st !! field = Some raw ->
  truthy (files st) (stripped raw) = true ->
  fvm (stripped raw) st = (Ok m, st1) ->
  truthy (files st1) m = true ->
  py_eq (get_revision (entity st1)) m = false ->
  validate env (entity st1) m (user st1) <> [] ->
  cleaned_data st1 !! field = Some v ->
  clean st =
    (Ok (stripped raw),
     set_metadata (Some m)
       (set_cleaned_data (delete field (cleaned_data st1))
          (set_errors
             (<[field := validate env (entity st1) m (user st1)]>
                (_errors st1))
             st1))).
Proof.
  intros H1 H2 H3 H4 H5 H6 H7. run_clean. rewrite H1. simpl.
  rewrite H2. simpl. rewrite H3, H4. simpl.
  unfold check_metadata_is_new. rewrite H5. simpl.
  unfold check_metadata_is_valid.
  destruct (validate env (entity st1) m (user st1)) as [|x errs] eqn:E;
    [done|].
  unfold mbind, M_bind, modify, del_cleaned_data. simpl. rewrite H7.
  reflexivity.
Qed.
End CleanField.

(** ** The remote fetch, outcome by outcome *)

Lemma isinstance_http_is_url e :
  isinstance e HTTPError = true -> isinstance e URLError = true.
Proof.
  unfold isinstance, issubclass.
  destruct (exn_cls e); simpl; try discriminate; reflexivity.
Qed.

Section Fetch.
Context (env : environment) (url : string) (st : state).
#[local] Abbreviation fetched :=
  (MetadataRemoteEditForm._fetch_metadata env url st).
#[local] Abbreviation request := (url, @None string, CONNECTION_TIMEOUT).

Ltac run_fetch :=
  unfold MetadataRemoteEditForm._fetch_metadata, try_exceptM, urlopen, mbind,
    M_bind, mret, M_ret, lift, validation_error, raise in *; simpl.

Lemma fetch_url_error e :
  net env url None CONNECTION_TIMEOUT = Raise e ->
  isinstance e URLError = true ->
  fetched
  = (Raise (Exn ValidationError ("URL Error: " +:+ exn_str e)),
     add_request request st).
Proof.
  intros H1 H2. run_fetch. rewrite H1. simpl. rewrite H2. reflexivity.
Qed.

Lemma fetch_general_error e :
  net env url None CONNECTION_TIMEOUT = Raise e ->
  isinstance e URLError = false ->
  fetched = (Ok None, add_request request st).
Proof.
  intros H1 H2. run_fetch. rewrite H1. simpl. rewrite H2. simpl.
  destruct (isinstance e HTTPError) eqn:H3.
  - apply isinstance_http_is_url in H3. congruence.
  - reflexivity.
Qed.

Lemma fetch_status resp code :
  net env url None CONNECTION_TIMEOUT = Ok resp ->
  getcode resp = Some code -> code <> 200%Z ->
  fetched
  = (Raise (Exn ValidationError ("Error in the response: " +:+ pretty code)),
     add_request request st).
Proof.
  intros H1 H2 H3. run_fetch. rewrite H1. simpl. rewrite H2. simpl.
  destruct (code =? 200)%Z eqn:E; [lia|]. reflexivity.
Qed.

Lemma fetch_no_status resp :
  net env url None CONNECTION_TIMEOUT = Ok resp ->
  getcode resp = None ->
  fetched
  = (Raise (Exn TypeError "%d format: a number is required, not NoneType"),
     add_request request st).
Proof.
  intros H1 H2. run_fetch. rewrite H1. simpl. rewrite H2. reflexivity.
Qed.

Lemma fetch_no_content_type resp :
  net env url None CONNECTION_TIMEOUT = Ok resp ->
  getcode resp = Some 200%Z ->
  headers resp !! "content-type" = None ->
  fetched = (Ok (Some (PStr (body resp))), add_request request st).
Proof.
  intros H1 H2 H3. run_fetch. rewrite H1. simpl. rewrite H2. simpl.
  unfold headers_getitem. rewrite H3. reflexivity.
Qed.

Lemma fetch_no_charset resp content_type :
  net env url None CONNECTION_TIMEOUT = Ok resp ->
  getcode resp = Some 200%Z ->
  headers resp !! "content-type" = Some content_type ->
  split "charset=" content_type !! 1 = None ->
  fetched = (Ok (Some (PStr (body resp))), add_request request st).
Proof.
  intros H1 H2 H3 H4. run_fetch. rewrite H1. simpl. rewrite H2. simpl.
  unfold headers_getitem. rewrite H3. simpl. unfold getitem. rewrite H4.
  reflexivity.
Qed.

Lemma fetch_charset resp content_type encoding :
  net env url None CONNECTION_TIMEOUT = Ok resp ->
  getcode resp = Some 200%Z ->
  headers resp !! "content-type" = Some content_type ->
  split "charset=" content_type !! 1 = Some encoding ->
  fetched
  = (Some <$> decode_result (decode env (body resp) encoding),
     add_request request st).
Proof.
  intros H1 H2 H3 H4. run_fetch. rewrite H1. simpl. rewrite H2. simpl.
  unfold headers_getitem. rewrite H3. simpl. unfold getitem. rewrite H4.
  simpl.
  destruct (decode env (body resp) encoding) as [v|[| |name] msg];
    reflexivity.
Qed.
End Fetch.

Lemma fetch_requests env url st :
  snd (MetadataRemoteEditForm._fetch_metadata env url st)
  = add_request (url, None, CONNECTION_TIMEOUT) st.
Proof.
  destruct (net env url None CONNECTION_TIMEOUT) as [resp|e] eqn:H1.
  - destruct (getcode resp) as [code|] eqn:H2.
    + destruct (decide (code = 200%Z)) as [->|Hne].
      * destruct (headers resp !! "content-type") as [ct|] eqn:H3.
        -- destruct (split "charset=" ct !! 1) as [enc|] eqn:H4.
           ++ by erewrite fetch_charset.
           ++ by erewrite fetch_no_charset.
        -- by erewrite fetch_no_content_type.
      * by erewrite fetch_status.
    + by erewrite fetch_no_status.
  - destruct (isinstance e URLError) eqn:H2.
    + by erewrite fetch_url_error.
    + by erewrite fetch_general_error.
Qed.

Lemma fetch_response_not_none env url st resp :
  net env url None CONNECTION_TIMEOUT = Ok resp ->
  fst (MetadataRemoteEditForm._fetch_metadata env url st) <> Ok None.
Proof.
  intros H1.
  destruct (getcode resp) as [code|] eqn:H2.
  - destruct (decide (code = 200%Z)) as [->|Hne].
    + destruct (headers resp !! "content-type") as [ct|] eqn:H3.
      * destruct (split "charset=" ct !! 1) as [enc|] eqn:H4.
        -- erewrite fetch_charset by done. simpl.
           destruct (decode_result _); done.
        -- by erewrite fetch_no_charset.
      * by erewrite fetch_no_content_type.
    + by erewrite fetch_status.
  - by erewrite fetch_no_status.
Qed.

Section FieldValueToMetadata.
Context (env : environment) (remote_url : string) (st : state).
#[local] Abbreviation outcome :=
  (MetadataRemoteEditForm._field_value_to_metadata env remote_url st).
#[local] Abbreviation request1 :=
  (remote_url, @None string, CONNECTION_TIMEOUT).
#[local] Abbreviation request2 :=
  ("http://" +:+ remote_url, @None string, CONNECTION_TIMEOUT).
#[local] Abbreviation attempt1 :=
  (MetadataRemoteEditForm._fetch_metadata env remote_url st).
#[local] Abbreviation attempt2 :=
  (MetadataRemoteEditForm._fetch_metadata env ("http://" +:+ remote_url)
     (add_request request1 st)).

Lemma remote_first_raises e :
  fst attempt1 = Raise e -> outcome = (Raise e, add_request request1 st).
Proof.
  intros H. pose proof (fetch_requests env remote_url st) as Hs.
  unfold MetadataRemoteEditForm._field_value_to_metadata, mbind, M_bind.
  destruct attempt1 as [r st1]. simpl in *. subst. reflexivity.
Qed.

Lemma remote_first_returns text :
  fst attempt1 = Ok (Some text) ->
  outcome = (Ok text, add_request request1 st).
Proof.
  intros H. pose proof (fetch_requests env remote_url st) as Hs.
  unfold MetadataRemoteEditForm._field_value_to_metadata, mbind, M_bind.
  destruct attempt1 as [r st1]. simpl in *. subst. reflexivity.
Qed.

Lemma remote_retry :
  fst attempt1 = Ok None ->
  outcome
  = (match fst attempt2 with
     | Ok (Some text) => Ok text
     | Ok None =>
         Raise (Exn ValidationError "Unknown error while fetching the url")
     | Raise e => Raise e
     end,
     add_request request2 (add_request request1 st)).
Proof.
  intros H. pose proof (fetch_requests env remote_url st) as Hs.
  pose proof (fetch_requests env ("http://" +:+ remote_url)
                (add_request request1 st)) as Hs2.
  unfold MetadataRemoteEditForm._field_value_to_metadata, mbind, M_bind.
  destruct attempt1 as [r st1]. simpl in *. subst.
  destruct attempt2 as [r2 st2]. simpl in *. subst.
  destruct r2 as [[text|]|e]; reflexivity.
Qed.
End FieldValueToMetadata.

(** ** The three subclasses share the base method *)

Lemma remote_requests env remote_url st :
  let outcome :=
    MetadataRemoteEditForm._field_value_to_metadata env remote_url st in
  let request1 := (remote_url, None, CONNECTION_TIMEOUT) in
  let request2 := ("http://" +:+ remote_url, None, CONNECTION_TIMEOUT) in
  snd outcome = add_request request1 st
  \/ snd outcome = add_request request2 (add_request request1 st).
Proof.
  simpl.
  destruct (fst (MetadataRemoteEditForm._fetch_metadata env remote_url st))
    as [[text|]|e] eqn:E.
  - left. by erewrite remote_first_returns.
  - right. by erewrite remote_retry.
  - left. by erewrite remote_first_raises.
Qed.

(** The methods of the three subclasses leave the form as it is: they
    touch the read position of a file and the list of requests only. *)
Lemma method_of_frame env form v st :
  let st1 := snd (method_of env form v st) in
  entity st1 = entity st /\ user st1 = user st
  /\ cleaned_data st1 = cleaned_data st /\ _errors st1 = _errors st.
Proof.
  destruct form; simpl.
  - done.
  - destruct v; done.
  - destruct v as [url|url|r]; simpl; [| |done];
      destruct (remote_requests env url st) as [-> | ->]; done.
Qed.

Lemma clean_metadata_unfold env form :
  clean_metadata env form
  = BaseMetadataEditForm._clean_metadata_field env (method_of env form)
      (field_of form).
Proof. destruct form; reflexivity. Qed.

(** ** A submission that reaches the two checks *)
Section MetadataSubmission.
Context (env : environment) (form : metadata_form) (st : state).
Context (raw : pyval) (Hfield : cleaned_data st !! field_of form = Some raw).

(** What the run looks like once the field value and the metadata made
    from it have passed the two emptiness tests. *)
Context (m : pyval) (st1 : state).
Context (Hvalue : truthy (files st) (stripped raw) = true).
Context (Hmethod : method_of env form (stripped raw) st = (Ok m, st1)).
Context (Hmetadata : truthy (files st1) m = true).

Lemma submission_frame :
  entity st1 = entity st /\ user st1 = user st
  /\ cleaned_data st1 = cleaned_data st /\ _errors st1 = _errors st.
Proof.
  pose proof (method_of_frame env form (stripped raw) st) as H.
  rewrite Hmethod in H. exact H.
Qed.

Lemma submission_unchanged :
  py_eq (get_revision (entity st)) m = true ->
  clean_metadata env form st = (Raise no_changes, st1).
Proof.
  intros H. destruct submission_frame as (He & _).
  rewrite clean_metadata_unfold.
  eapply clean_field_unchanged; eauto. by rewrite He.
Qed.

Lemma submission_invalid :
  py_eq (get_revision (entity st)) m = false ->
  validate env (entity st) m (user st) <> [] ->
  clean_metadata env form st =
    (Ok (stripped raw),
     set_metadata (Some m)
       (set_cleaned_data (delete (field_of form) (cleaned_data st))
          (set_errors
             (<[field_of form := validate env (entity st) m (user st)]>
                (_errors st))
             st1))).
Proof.
  intros H1 H2. destruct submission_frame as (He & Hu & Hc & Hr).
  rewrite clean_metadata_unfold.
  erewrite clean_field_invalid; eauto; rewrite ?He, ?Hu, ?Hc, ?Hr; eauto.
Qed.
End MetadataSubmission.

(** ** Remote fetch: helper facts *)

Lemma general_error_not_url e :
  general_error e -> isinstance e URLError = false.
Proof. by intros [H _]. Qed.

Lemma url_or_http_is_url e :
  isinstance e URLError || isinstance e HTTPError = true ->
  isinstance e URLError = true.
Proof.
  intros [H|H]%orb_prop; [done|]. by apply isinstance_http_is_url.
Qed.

(** The validation errors of [_fetch_metadata] come from two places. *)
Lemma fetch_validation_errors env url st e :
  fst (MetadataRemoteEditForm._fetch_metadata env url st) = Raise e ->
  exn_cls e = ValidationError ->
  (exists x, exn_str e = "URL Error: " +:+ x)
  \/ (exists x, exn_str e = "Error in the response: " +:+ x).
Proof.
  destruct (net env url None CONNECTION_TIMEOUT) as [resp|e0] eqn:H1.
  - destruct (getcode resp) as [code|] eqn:H2.
    + destruct (decide (code = 200%Z)) as [->|Hne].
      * destruct (headers resp !! "content-type") as [ct|] eqn:H3.
        -- destruct (split "charset=" ct !! 1) as [enc|] eqn:H4.
           ++ erewrite fetch_charset by done. simpl.
              destruct (decode env (body resp) enc) as [v|[| |name] msg];
                simpl; intros [= <-]; discriminate.
           ++ erewrite fetch_no_charset by done. discriminate.
        -- erewrite fetch_no_content_type by done. discriminate.
      * erewrite fetch_status by done. simpl. intros [= <-] _. right. eauto.
    + erewrite fetch_no_status by done. simpl. intros [= <-]. discriminate.
  - destruct (isinstance e0 URLError) eqn:H2.
    + erewrite fetch_url_error by done. simpl. intros [= <-] _. left. eauto.
    + erewrite fetch_general_error by done. discriminate.
Qed.
(** ** The entity forms *)

Lemma check_characters_found env chars name ch :
  In ch chars ->
  contains (String ch "") name = true ->
  check_characters env chars name
  = Raise (Exn ValidationError (ugettext env illegal_characters)).
Proof.
  induction chars as [|c chars IH]; intros Hin Hc; [done|].
  cbn [check_characters].
  destruct (contains (String c "") name) eqn:E; [done|].
  destruct Hin as [-> | Hin]; [congruence|]. by apply IH.
Qed.

Lemma check_characters_passes env chars name :
  forallb (fun ch => negb (contains (String ch "") name)) chars = true ->
  check_characters env chars name = Ok tt.
Proof.
  induction chars as [|c chars IH]; [done|].
  cbn [forallb check_characters]. intros [Hc Hr]%andb_prop.
  apply negb_true_iff in Hc. rewrite Hc. by apply IH.
Qed.

(** * The specified behaviour, property by property *)

(** C1: every call of MetadataRemoteEditForm._field_value_to_metadata
    first requests the given URL, with no data and the timeout
    CONNECTION_TIMEOUT.  When that request raises an exception that is an
    instance of URLError or of HTTPError, no other request is made and the
    method raises a validation error (the URL-error message).  When it
    raises an exception of any other class, exactly one more request is
    made, for 'http://' + the URL with the same timeout, and when that one
    also raises an exception that is neither a URLError nor an HTTPError the
    method raises the validation error 'Unknown error while fetching the
    url'.  A first request that gets a response is not followed by
    another. *)
Theorem remote_fetch_retries_once env remote_url st :
  let outcome :=
    MetadataRemoteEditForm._field_value_to_metadata env remote_url st in
  let request1 := (remote_url, None, CONNECTION_TIMEOUT) in
  let request2 := ("http://" +:+ remote_url, None, CONNECTION_TIMEOUT) in
  (exists retry, requests (snd outcome) = requests st ++ request1 :: retry)
  /\ (forall e,
        net env remote_url None CONNECTION_TIMEOUT = Raise e ->
        isinstance e URLError || isinstance e HTTPError = true ->
        requests (snd outcome) = requests st ++ [request1]
        /\ fst outcome
           = Raise (Exn ValidationError ("URL Error: " +:+ exn_str e)))
  /\ (forall e,
        net env remote_url None CONNECTION_TIMEOUT = Raise e ->
        general_error e ->
        requests (snd outcome) = requests st ++ [request1; request2]
        /\ (forall e2,
              net env ("http://" +:+ remote_url) None CONNECTION_TIMEOUT
              = Raise e2 ->
              general_error e2 ->
              fst outcome
              = Raise (Exn ValidationError
                         "Unknown error while fetching the url")))
  /\ (forall resp,
        net env remote_url None CONNECTION_TIMEOUT = Ok resp ->
        requests (snd outcome) = requests st ++ [request1]).
Proof.
  intros outcome request1 request2. subst outcome. split_and!.
  - destruct (remote_requests env remote_url st) as [-> | ->]; simpl.
    + by exists [].
    + exists [request2]. by rewrite <- app_assoc.
  - intros e H1 H2%url_or_http_is_url.
    erewrite remote_first_raises; [done|]. by erewrite fetch_url_error.
  - intros e H1 H2%general_error_not_url.
    erewrite remote_retry by (by erewrite fetch_general_error). simpl. split.
    + by rewrite <- app_assoc.
    + intros e2 H3 H4%general_error_not_url. by erewrite fetch_general_error.
  - intros resp H1.
    pose proof (fetch_response_not_none env remote_url st resp H1) as Hsome.
    destruct (fst (MetadataRemoteEditForm._fetch_metadata env remote_url st))
      as [[text|]|e] eqn:E; [|done|].
    + by erewrite remote_first_returns.
    + by erewrite remote_first_raises.
Qed.

(** C1 at one input: with the network down, 'example.org' is requested,
    then 'http://example.org', and the unknown-error message follows. *)
Lemma bare_hostname_retried_once :
  let env := Sample.world Sample.offline Sample.accept in
  let st := Sample.form Sample.idp ∅ Sample.no_files in
  let outcome :=
    MetadataRemoteEditForm._field_value_to_metadata env "example.org" st in
  requests (snd outcome)
  = [("example.org", None, 10%Z); ("http://example.org", None, 10%Z)]
  /\ fst outcome
     = Raise (Exn ValidationError "Unknown error while fetching the url").
Proof.
  intros env st outcome.
  destruct (remote_fetch_retries_once env "example.org" st)
    as (_ & _ & H & _).
  destruct (H (Exn (OtherError "socket.timeout") "timed out")) as [Hreq Hout];
    [reflexivity | split; reflexivity |].
  split; [exact Hreq|].
  apply (Hout (Exn (OtherError "socket.timeout") "timed out"));
    [reflexivity | split; reflexivity].
Defined.

(** C2, amended: in each of the three subclasses, cleaning the metadata
    field raises 'Empty metadata is not allowed' when the submitted field
    value is a string made of whitespace only (it is stripped first), and
    when the metadata obtained from the field value (the stripped text, the
    bytes read from the file, the fetched body) is an empty string. *)
Theorem empty_metadata_rejected env form st raw :
  cleaned_data st !! field_of form = Some raw ->
  (whitespace_only raw = true ->
   fst (clean_metadata env form st) = Raise empty_metadata)
  /\ (forall m st1,
        method_of env form (stripped raw) st = (Ok m, st1) ->
        empty_content m ->
        fst (clean_metadata env form st) = Raise empty_metadata).
Proof.
  intros Hfield. rewrite clean_metadata_unfold. split.
  - intros H.
    erewrite clean_field_empty_value; eauto using whitespace_only_stripped.
  - intros m st1 Hm He.
    edestruct clean_field_empty_metadata as [-> | ->];
      eauto using empty_content_falsy.
Qed.

(** C2, amended, at one input: pasted text of three spaces. *)
Lemma blank_text_rejected :
  let env := Sample.world Sample.offline Sample.accept in
  let st :=
    Sample.form Sample.idp {[ "metadata_text" := PUnicode "   " ]}
      Sample.no_files in
  fst (clean_metadata env TextForm st) = Raise empty_metadata.
Proof.
  intros env st.
  destruct (empty_metadata_rejected env TextForm st (PUnicode "   "))
    as [H _]; [reflexivity|].
  apply H. reflexivity.
Defined.

(** C2 as stated fails: an uploaded file whose content is three spaces
    yields metadata that is whitespace only, the content is not stripped,
    and cleaning raises nothing; the validator's errors are all the form
    reports. *)
Lemma whitespace_upload_not_rejected_as_empty :
  let env := Sample.world Sample.offline Sample.reject in
  let st :=
    Sample.form Sample.idp {[ "metadata_file" := PFile 0 ]}
      (Sample.upload "idp.xml" "   ") in
  let outcome := clean_metadata env FileForm st in
  fst (method_of env FileForm (PFile 0) st) = Ok (PStr "   ")
  /\ whitespace_only (PStr "   ") = true
  /\ fst outcome = Ok (PFile 0)
  /\ fst outcome <> Raise empty_metadata.
Proof. vm_compute. split_and!; [reflexivity..|discriminate]. Qed.

(** C3, amended: in each of the three subclasses, when the field value
    (after stripping) is not empty and the metadata obtained from it is not
    empty and equals ([==]) the current revision of the entity, cleaning the
    metadata field raises 'There are no changes in the metadata'. *)
Theorem unchanged_metadata_rejected env form st raw m st1 :
  cleaned_data st !! field_of form = Some raw ->
  truthy (files st) (stripped raw) = true ->
  method_of env form (stripped raw) st = (Ok m, st1) ->
  truthy (files st1) m = true ->
  py_eq (get_revision (entity st)) m = true ->
  fst (clean_metadata env form st) = Raise no_changes.
Proof.
  intros. by erewrite submission_unchanged.
Qed.

(** C3, amended, at one input: the current revision pasted again, with
    blanks around it. *)
Lemma identical_text_rejected :
  let env := Sample.world Sample.offline Sample.accept in
  let st :=
    Sample.form Sample.idp {[ "metadata_text" := PUnicode "  <old/>  " ]}
      Sample.no_files in
  fst (clean_metadata env TextForm st) = Raise no_changes.
Proof.
  intros env st.
  apply (unchanged_metadata_rejected env TextForm st
           (PUnicode "  <old/>  ") (PUnicode "<old/>") st); reflexivity.
Defined.

(** C3 as stated fails: for an entity whose current revision is the empty
    string, a URL that answers 200 with an empty body yields metadata equal
    to the current revision, and the error raised is the empty-metadata one,
    since that test comes first. *)
Lemma empty_download_on_fresh_entity :
  let url := "http://idp.example.org/md" in
  let env :=
    Sample.world (Sample.serves url (Sample.xml_response None ""))
      Sample.accept in
  let st :=
    Sample.form Sample.fresh {[ "metadata_url" := PUnicode url ]}
      Sample.no_files in
  let outcome := clean_metadata env RemoteForm st in
  fst (method_of env RemoteForm (PUnicode url) st) = Ok (PStr "")
  /\ py_eq (get_revision (entity st)) (PStr "") = true
  /\ fst outcome = Raise empty_metadata
  /\ fst outcome <> Raise no_changes.
Proof. vm_compute. split_and!; [reflexivity..|discriminate]. Qed.

(** C4, amended: when the submitted name contains one of the characters
    ! : & \ |, EditEntityForm.clean raises the illegal-characters validation
    error, and so does EntityForm.clean provided the cleaned data hold a
    domain as well. *)
Theorem reserved_characters_rejected env cleaned_data name ch :
  cd_name cleaned_data = Some name ->
  In ch reserved ->
  contains (String ch "") name = true ->
  let error := Exn ValidationError (ugettext env illegal_characters) in
  EditEntityForm.clean env cleaned_data = Raise error
  /\ (forall domain,
        cd_domain cleaned_data = Some domain ->
        EntityForm.clean env cleaned_data = Raise error).
Proof.
  intros Hname Hin Hc error. subst error.
  pose proof (contains_nonempty _ _ Hc) as Hne.
  pose proof (check_characters_found env _ _ _ Hin Hc) as Hcheck.
  split.
  - unfold EditEntityForm.clean. rewrite Hname, Hne, Hcheck. reflexivity.
  - intros domain Hd. unfold EntityForm.clean.
    rewrite Hname, Hd, Hne, Hcheck. reflexivity.
Qed.

(** C4, amended, at one input: the name 'idp:test' in both forms. *)
Lemma colon_in_name_rejected :
  let env := Sample.world Sample.offline Sample.accept in
  let cleaned_data :=
    {| cd_name := Some "idp:test"; cd_domain := Some Sample.domain1 |} in
  EditEntityForm.clean env cleaned_data
  = Raise (Exn ValidationError illegal_characters)
  /\ EntityForm.clean env cleaned_data
     = Raise (Exn ValidationError illegal_characters).
Proof.
  intros env cleaned_data.
  destruct (reserved_characters_rejected env cleaned_data "idp:test" ":"%char)
    as [H1 H2]; [reflexivity | right; left; reflexivity | reflexivity |].
  split; [exact H1 | apply (H2 Sample.domain1); reflexivity].
Defined.

(** C4 as stated fails: EntityForm.clean tests the name only under
    [if name and domain]; without a domain in the cleaned data, the name
    'a!b' passes and the cleaned data are returned. *)
Lemma reserved_name_without_domain_passes :
  let env := Sample.world Sample.offline Sample.accept in
  let cleaned_data := {| cd_name := Some "a!b"; cd_domain := None |} in
  contains "!" "a!b" = true
  /\ EntityForm.clean env cleaned_data = Ok cleaned_data.
Proof. vm_compute. split; reflexivity. Qed.

(** C5, amended: for an EntityForm submission with a non-empty name that
    holds none of the reserved characters, and a domain, when exactly one
    existing Entity has that name and domain, clean raises 'There is already
    an entity with that name for that domain'. *)
Theorem duplicate_entity_rejected env cleaned_data name domain existing :
  cd_name cleaned_data = Some name ->
  cd_domain cleaned_data = Some domain ->
  nonempty name = true ->
  forallb (fun ch => negb (contains (String ch "") name)) reserved = true ->
  matching env name domain = [existing] ->
  EntityForm.clean env cleaned_data
  = Raise (Exn ValidationError (ugettext env already_exists)).
Proof.
  intros Hname Hd Hne Hres Hm. unfold EntityForm.clean.
  rewrite Hname, Hd, Hne, (check_characters_passes _ _ _ Hres).
  unfold Entity_objects_get. rewrite Hm. reflexivity.
Qed.

(** C5, amended, at one input: a second entity named 'idp' in the domain
    of the first. *)
Lemma second_idp_rejected :
  let env := Sample.world Sample.offline Sample.accept in
  let cleaned_data :=
    {| cd_name := Some "idp"; cd_domain := Some Sample.domain1 |} in
  EntityForm.clean env cleaned_data
  = Raise (Exn ValidationError
             "There is already an entity with that name for that domain").
Proof.
  intros env cleaned_data.
  apply (duplicate_entity_rejected env cleaned_data "idp" Sample.domain1
           Sample.idp); reflexivity.
Defined.

(** C5 as stated fails: the name 'a!b' matches an existing entity of the
    domain, and the error raised is the illegal-characters one, since the
    loop over the reserved characters runs before the lookup. *)
Lemma duplicate_with_reserved_name :
  let env := Sample.world Sample.offline Sample.accept in
  let cleaned_data :=
    {| cd_name := Some "a!b"; cd_domain := Some Sample.domain1 |} in
  matching env "a!b" Sample.domain1 = [Sample.legacy]
  /\ EntityForm.clean env cleaned_data
     = Raise (Exn ValidationError illegal_characters)
  /\ EntityForm.clean env cleaned_data
     <> Raise (Exn ValidationError (ugettext env already_exists)).
Proof. vm_compute. split_and!; [reflexivity..|discriminate]. Qed.

(** C6: in each of the three subclasses, when a submission reaches the
    validator (field value and metadata not empty, metadata different from
    the current revision) and [validate(entity, metadata, user)] returns a
    non-empty list, then after [_clean_metadata_field] that list is the
    error list of the metadata field in [_errors], the field is no longer
    in [cleaned_data], and the method has returned normally (the stripped
    field value), raising nothing. *)
Theorem validator_errors_attached env form st raw m st1 :
  cleaned_data st !! field_of form = Some raw ->
  truthy (files st) (stripped raw) = true ->
  method_of env form (stripped raw) st = (Ok m, st1) ->
  truthy (files st1) m = true ->
  py_eq (get_revision (entity st)) m = false ->
  validate env (entity st) m (user st) <> [] ->
  let outcome := clean_metadata env form st in
  _errors (snd outcome) !! field_of form
    = Some (validate env (entity st) m (user st))
  /\ cleaned_data (snd outcome) !! field_of form = None
  /\ fst outcome = Ok (stripped raw).
Proof.
  intros. subst outcome. erewrite submission_invalid by eauto. simpl.
  split_and!.
  - apply lookup_insert_eq.
  - apply lookup_delete_eq.
  - done.
Qed.

(** C6 at one input: an uploaded file that the validator rejects. *)
Lemma rejected_upload_reported :
  let env := Sample.world Sample.offline Sample.reject in
  let st :=
    Sample.form Sample.idp {[ "metadata_file" := PFile 0 ]}
      (Sample.upload "idp.xml" "<new/>") in
  let outcome := clean_metadata env FileForm st in
  _errors (snd outcome) !! "metadata_file"
  = Some ["Not a valid XML document"; "Missing entityID"]
  /\ cleaned_data (snd outcome) !! "metadata_file" = None
  /\ fst outcome = Ok (PFile 0).
Proof.
  intros env st outcome.
  eapply (validator_errors_attached env FileForm st (PFile 0) (PStr "<new/>"));
    [reflexivity | reflexivity | reflexivity | reflexivity | reflexivity
    | discriminate].
Defined.

(** C7: when [urlopen] returns a response whose status code is an
    integer other than 200, [_fetch_metadata] raises the validation error
    'Error in the response: ' followed by the code in decimal, and so does
    [_field_value_to_metadata], whether the response answers its first
    request or the retry with 'http://'. *)
Theorem non_200_response_rejected env url st resp code :
  net env url None CONNECTION_TIMEOUT = Ok resp ->
  getcode resp = Some code ->
  code <> 200%Z ->
  let error :=
    Exn ValidationError ("Error in the response: " +:+ pretty code) in
  fst (MetadataRemoteEditForm._fetch_metadata env url st) = Raise error
  /\ fst (MetadataRemoteEditForm._field_value_to_metadata env url st)
     = Raise error
  /\ (forall remote_url e,
        url = "http://" +:+ remote_url ->
        net env remote_url None CONNECTION_TIMEOUT = Raise e ->
        general_error e ->
        fst (MetadataRemoteEditForm._field_value_to_metadata env remote_url st)
        = Raise error).
Proof.
  intros H1 H2 H3 error. subst error. split_and!.
  - by erewrite fetch_status.
  - erewrite remote_first_raises; [done|]. by erewrite fetch_status.
  - intros remote_url e -> H4 H5%general_error_not_url.
    erewrite remote_retry by (by erewrite fetch_general_error).
    by erewrite fetch_status.
Qed.

(** C7 at one input: a 204 response. *)
Lemma no_content_response_rejected :
  let url := "http://idp.example.org/md" in
  let env :=
    Sample.world (Sample.serves url (Sample.status_response 204))
      Sample.accept in
  let st := Sample.form Sample.idp ∅ Sample.no_files in
  fst (MetadataRemoteEditForm._field_value_to_metadata env url st)
  = Raise (Exn ValidationError "Error in the response: 204").
Proof.
  intros url env st.
  destruct (non_200_response_rejected env url st (Sample.status_response 204)
              204%Z) as (_ & H & _);
    [reflexivity | reflexivity | discriminate |].
  exact H.
Defined.

(** C8, amended: for a response with status 200, [_fetch_metadata]
    returns the body as raw bytes when the response has no content-type
    header, and when that header does not contain 'charset='; when the
    header contains 'charset=', the charset is the second piece of the
    header split at 'charset=', and when decoding the body with it succeeds
    the decoded value is returned. *)
Theorem charset_decides_decoding env url st resp :
  net env url None CONNECTION_TIMEOUT = Ok resp ->
  getcode resp = Some 200%Z ->
  let fetched := fst (MetadataRemoteEditForm._fetch_metadata env url st) in
  (headers resp !! "content-type" = None ->
   fetched = Ok (Some (PStr (body resp))))
  /\ (forall content_type,
        headers resp !! "content-type" = Some content_type ->
        contains "charset=" content_type = false ->
        fetched = Ok (Some (PStr (body resp))))
  /\ (forall content_type,
        headers resp !! "content-type" = Some content_type ->
        contains "charset=" content_type = true ->
        exists charset,
          split "charset=" content_type !! 1 = Some charset
          /\ forall text,
               decode env (body resp) charset = Decoded text ->
               fetched = Ok (Some text)).
Proof.
  intros H1 H2 fetched. subst fetched. split_and!.
  - intros H3. by erewrite fetch_no_content_type.
  - intros ct H3 H4. erewrite fetch_no_charset; eauto.
    unfold split. by rewrite split_go_absent.
  - intros ct H3 H4.
    destruct (split_go_present "charset=" "" ct)
      as (before & charset & rest & E); [done|done|].
    exists charset. unfold split. rewrite E. split; [done|].
    intros text Hd. erewrite fetch_charset; eauto.
    + by rewrite Hd.
    + unfold split. by rewrite E.
Qed.

(** C8, amended, at one input: 'text/xml; charset=ascii'. *)
Lemma declared_charset_decodes :
  let url := "http://idp.example.org/md" in
  let env :=
    Sample.world
      (Sample.serves url
         (Sample.xml_response (Some "text/xml; charset=ascii") "<new/>"))
      Sample.accept in
  let st := Sample.form Sample.idp ∅ Sample.no_files in
  fst (MetadataRemoteEditForm._fetch_metadata env url st)
  = Ok (Some (PUnicode "<new/>")).
Proof.
  intros url env st.
  destruct (charset_decides_decoding env url st
              (Sample.xml_response (Some "text/xml; charset=ascii") "<new/>"))
    as (_ & _ & H); [reflexivity | reflexivity |].
  destruct (H "text/xml; charset=ascii") as (charset & Hsplit & Hdecode);
    [reflexivity | reflexivity |].
  vm_compute in Hsplit. injection Hsplit as <-.
  apply Hdecode. reflexivity.
Defined.

(** C8 as stated fails: a 200 response that declares a charset the codec
    registry does not know makes [decode] raise LookupError, which the
    clause [except (KeyError, IndexError)] does not catch; it leaves
    [_fetch_metadata], [_field_value_to_metadata] and the cleaning method
    as it is, and it is not a validation error. *)
Lemma unknown_charset_escapes :
  let url := "http://idp.example.org/md" in
  let resp :=
    Sample.xml_response (Some "text/xml; charset=x-unknown") "<new/>" in
  let env := Sample.world (Sample.serves url resp) Sample.accept in
  let st :=
    Sample.form Sample.idp {[ "metadata_url" := PUnicode url ]}
      Sample.no_files in
  let escaped := Exn LookupError "unknown encoding: x-unknown" in
  net env url None CONNECTION_TIMEOUT = Ok resp
  /\ getcode resp = Some 200%Z
  /\ fst (MetadataRemoteEditForm._fetch_metadata env url st) = Raise escaped
  /\ fst (MetadataRemoteEditForm._field_value_to_metadata env url st)
     = Raise escaped
  /\ fst (clean_metadata env RemoteForm st) = Raise escaped
  /\ exn_cls escaped <> ValidationError.
Proof. vm_compute. split_and!; [reflexivity..|discriminate]. Qed.

(** C9: in [_fetch_metadata], whatever the HTTPError clause matches, the
    URLError clause written before it matches too, since HTTPError derives
    from URLError; so an HTTPError raised by [urlopen] gives the validation
    error 'URL Error: ...', and no validation error that [_fetch_metadata]
    or [_field_value_to_metadata] raises has a message that starts with
    'HTTP Error: '. *)
Theorem http_error_clause_unreachable env url st :
  (forall e,
     clause_matches (Some [HTTPError]) e = true ->
     clause_matches (Some [URLError]) e = true)
  /\ (forall e,
        net env url None CONNECTION_TIMEOUT = Raise e ->
        exn_cls e = HTTPError ->
        fst (MetadataRemoteEditForm._fetch_metadata env url st)
        = Raise (Exn ValidationError ("URL Error: " +:+ exn_str e)))
  /\ (forall e,
        fst (MetadataRemoteEditForm._fetch_metadata env url st) = Raise e ->
        exn_cls e = ValidationError ->
        String.prefix "HTTP Error: " (exn_str e) = false)
  /\ (forall e,
        fst (MetadataRemoteEditForm._field_value_to_metadata env url st)
        = Raise e ->
        exn_cls e = ValidationError ->
        String.prefix "HTTP Error: " (exn_str e) = false).
Proof.
  assert (Hfetch : forall u s e,
    fst (MetadataRemoteEditForm._fetch_metadata env u s) = Raise e ->
    exn_cls e = ValidationError ->
    String.prefix "HTTP Error: " (exn_str e) = false).
  { intros u s e H1 H2.
    destruct (fetch_validation_errors env u s e H1 H2) as [[x ->] | [x ->]];
      reflexivity. }
  split_and!.
  - intros e. simpl. rewrite !orb_false_r. apply isinstance_http_is_url.
  - intros e H1 H2. erewrite fetch_url_error; [done|done|].
    unfold isinstance. by rewrite H2.
  - apply Hfetch.
  - intros e.
    destruct (fst (MetadataRemoteEditForm._fetch_metadata env url st))
      as [[text|]|e1] eqn:E.
    + by erewrite remote_first_returns.
    + erewrite remote_retry by done. simpl.
      destruct (fst (MetadataRemoteEditForm._fetch_metadata env
                       ("http://" +:+ url) _)) as [[text|]|e2] eqn:E2.
      * discriminate.
      * intros H _. by simplify_eq.
      * intros H Hc. simplify_eq. by eapply Hfetch.
    + erewrite remote_first_raises by done. simpl. intros H Hc. simplify_eq.
      by eapply Hfetch.
Qed.

(** C9 at one input: a 404 raised by urlopen as an HTTPError. *)
Lemma not_found_reported_as_url_error :
  let env :=
    Sample.world (Sample.fails_with HTTPError "HTTP Error 404: Not Found")
      Sample.accept in
  let st := Sample.form Sample.idp ∅ Sample.no_files in
  fst (MetadataRemoteEditForm._fetch_metadata env "http://idp.example.org/md" st)
  = Raise (Exn ValidationError "URL Error: HTTP Error 404: Not Found").
Proof.
  intros env st.
  destruct (http_error_clause_unreachable env "http://idp.example.org/md" st)
    as (_ & H & _).
  apply (H (Exn HTTPError "HTTP Error 404: Not Found")); reflexivity.
Defined.

(** C10: in each of the three subclasses, when a submission reaches the
    validator and the validator returns a non-empty list of errors,
    [_clean_metadata_field] still sets [self.metadata] to the new metadata
    and returns the cleaned field value, so that [get_metadata()] returns
    the content that failed validation, not None. *)
Theorem invalid_metadata_still_staged env form st raw m st1 :
  cleaned_data st !! field_of form = Some raw ->
  truthy (files st) (stripped raw) = true ->
  method_of env form (stripped raw) st = (Ok m, st1) ->
  truthy (files st1) m = true ->
  py_eq (get_revision (entity st)) m = false ->
  validate env (entity st) m (user st) <> [] ->
  let outcome := clean_metadata env form st in
  metadata (snd outcome) = Some m
  /\ fst outcome = Ok (stripped raw)
  /\ BaseMetadataEditForm.get_metadata (snd outcome) = Some m.
Proof.
  intros. subst outcome. erewrite submission_invalid by eauto. done.
Qed.

(** C10 at one input: fetched metadata that the validator rejects. *)
Lemma rejected_download_still_staged :
  let url := "http://idp.example.org/md" in
  let env :=
    Sample.world
      (Sample.serves url
         (Sample.xml_response (Some "text/xml; charset=ascii") "<new/>"))
      Sample.reject in
  let st :=
    Sample.form Sample.idp {[ "metadata_url" := PUnicode url ]}
      Sample.no_files in
  let outcome := clean_metadata env RemoteForm st in
  metadata (snd outcome) = Some (PUnicode "<new/>")
  /\ fst outcome = Ok (PUnicode url)
  /\ BaseMetadataEditForm.get_metadata (snd outcome) = Some (PUnicode "<new/>").
Proof.
  intros url env st outcome.
  eapply (invalid_metadata_still_staged env RemoteForm st (PUnicode url)
            (PUnicode "<new/>"));
    [reflexivity | reflexivity | reflexivity | reflexivity | reflexivity
    | discriminate].
Defined.

(** * Further properties of the module *)

(** ** More on the entity forms *)

Lemma check_characters_has_reserved env chars name :
  check_characters env chars name
  = if existsb (fun ch => contains (String ch "") name) chars
    then Raise (Exn ValidationError (ugettext env illegal_characters))
    else Ok tt.
Proof.
  induction chars as [|c chars IH]; [done|].
  cbn [check_characters existsb].
  by destruct (contains (String c "") name).
Qed.

Lemma has_reserved_empty : has_reserved "" = false.
Proof. reflexivity. Qed.

Lemma matching_nil env name domain :
  (forall e, e ∈ entities env -> entity_name e = name ->
             entity_domain e <> domain_id domain) ->
  matching env name domain = [].
Proof.
  intros H. unfold matching.
  induction (entities env) as [|e l IH]; [done|].
  cbn [List.filter].
  destruct (String.eqb (entity_name e) name) eqn:En; simpl.
  - apply String.eqb_eq in En.
    destruct (Nat.eqb (entity_domain e) (domain_id domain)) eqn:Ed.
    + apply Nat.eqb_eq in Ed. exfalso. eapply (H e); [left|done|done].
    + apply IH. intros e' He'. apply H. by right.
  - apply IH. intros e' He'. apply H. by right.
Qed.

(** X1: EditEntityForm.clean raises the illegal-characters error exactly
    when the submitted name holds one of the reserved characters; in every
    other case, a missing name included, it returns the cleaned data as
    they are.  The entity table plays no part: a name that another entity
    already bears passes. *)
Theorem edit_entity_form_decided_by_name env cleaned_data :
  EditEntityForm.clean env cleaned_data
  = match cd_name cleaned_data with
    | Some name =>
        if has_reserved name
        then Raise (Exn ValidationError (ugettext env illegal_characters))
        else Ok cleaned_data
    | None => Ok cleaned_data
    end.
Proof.
  unfold EditEntityForm.clean.
  destruct (cd_name cleaned_data) as [name|]; [|done].
  destruct name as [|c name]; [done|]. cbn [nonempty].
  rewrite check_characters_has_reserved. fold (has_reserved (String c name)).
  by destruct (has_reserved (String c name)).
Qed.

(** X2: EntityForm.clean returns the cleaned data as they are when the
    name holds no reserved character and no existing entity has both that
    name and that domain; an entity of the same name in another domain is
    no obstacle. *)
Theorem new_pair_accepted env cleaned_data name domain :
  cd_name cleaned_data = Some name ->
  cd_domain cleaned_data = Some domain ->
  has_reserved name = false ->
  (forall e, e ∈ entities env -> entity_name e = name ->
             entity_domain e <> domain_id domain) ->
  EntityForm.clean env cleaned_data = Ok cleaned_data.
Proof.
  intros Hn Hd Hr Hm. unfold EntityForm.clean. rewrite Hn, Hd.
  destruct (nonempty name); [|done].
  rewrite check_characters_has_reserved. fold (has_reserved name). rewrite Hr.
  unfold Entity_objects_get. by rewrite matching_nil.
Qed.

(** X2 at one input: the name 'idp', taken in domain 1, submitted for
    domain 2. *)
Lemma same_name_other_domain_accepted :
  let env := Sample.world Sample.offline Sample.accept in
  let cleaned_data :=
    {| cd_name := Some "idp"; cd_domain := Some Sample.shared |} in
  EntityForm.clean env cleaned_data = Ok cleaned_data.
Proof.
  intros env cleaned_data.
  apply (new_pair_accepted env cleaned_data "idp" Sample.shared);
    [reflexivity | reflexivity | reflexivity |].
  intros e He Hname. vm_compute.
  apply list_elem_of_In in He. vm_compute in He.
  destruct He as [<- | [<- | []]]; [discriminate | discriminate].
Defined.

Lemma in_team_elem user domain :
  in_team user domain = true <-> user ∈ domain_team domain.
Proof.
  unfold in_team. rewrite existsb_exists, list_elem_of_In. split.
  - intros (x & Hx & ->%Nat.eqb_eq). done.
  - intros H. exists user. split; [done|apply Nat.eqb_refl].
Qed.

(** X3: EntityForm.clean_domain returns the domain when the user owns it
    or belongs to its team, raises 'You cannot use this domain' when the
    user does neither, and returns None without an error when the cleaned
    data hold no domain. *)
Theorem clean_domain_owner_or_team env user cleaned_data :
  (cd_domain cleaned_data = None ->
   EntityForm.clean_domain env user cleaned_data = Ok None)
  /\ (forall d,
        cd_domain cleaned_data = Some d ->
        domain_owner d = user \/ user ∈ domain_team d ->
        EntityForm.clean_domain env user cleaned_data = Ok (Some d))
  /\ (forall d,
        cd_domain cleaned_data = Some d ->
        domain_owner d <> user ->
        user ∉ domain_team d ->
        EntityForm.clean_domain env user cleaned_data
        = Raise (Exn ValidationError
                   (ugettext env "You cannot use this domain"))).
Proof.
  unfold EntityForm.clean_domain. split_and!.
  - by intros ->.
  - intros d -> [Ho | Ht].
    + apply Nat.eqb_eq in Ho. by rewrite Ho.
    + apply in_team_elem in Ht. rewrite Ht. by rewrite andb_false_r.
  - intros d -> Ho Ht. apply Nat.eqb_neq in Ho. rewrite Ho.
    destruct (in_team user d) eqn:E; [|done].
    apply in_team_elem in E. done.
Qed.

(** X3 at one input: user 5 neither owns domain 1 nor is in its team. *)
Lemma outsider_cannot_use_domain :
  let env := Sample.world Sample.offline Sample.accept in
  EntityForm.clean_domain env 5
    {| cd_name := Some "sp"; cd_domain := Some Sample.domain1 |}
  = Raise (Exn ValidationError "You cannot use this domain").
Proof.
  intros env.
  destruct (clean_domain_owner_or_team env 5
              {| cd_name := Some "sp"; cd_domain := Some Sample.domain1 |})
    as (_ & _ & H).
  apply (H Sample.domain1); [reflexivity | discriminate |].
  intros Hin. apply list_elem_of_In in Hin. vm_compute in Hin.
  destruct Hin as [Hin | []]. discriminate.
Defined.

(** X4: every domain that EntityForm.__init__ leaves in the queryset of
    the domain field for a user is a row of the original queryset, is
    validated, and passes clean_domain for that user. *)
Theorem selectable_domain_passes_clean_domain env user queryset row name :
  row ∈ EntityForm.domain_queryset user queryset ->
  row ∈ queryset
  /\ row_validated row = true
  /\ EntityForm.clean_domain env user
       {| cd_name := name; cd_domain := Some (row_domain row) |}
     = Ok (Some (row_domain row)).
Proof.
  unfold EntityForm.domain_queryset.
  rewrite elem_of_remove_dups, list_elem_of_In, filter_In, <- list_elem_of_In.
  intros [Hin Hsel]. split; [done|].
  apply orb_prop in Hsel.
  assert (row_validated row = true
          /\ (Nat.eqb (domain_owner (row_domain row)) user = true
              \/ in_team user (row_domain row) = true)) as [Hv Hc].
  { destruct Hsel as [[? ?]%andb_prop | [? ?]%andb_prop]; auto. }
  split; [done|]. unfold EntityForm.clean_domain. cbn [cd_domain].
  destruct Hc as [-> | ->]; [done|]. by rewrite andb_false_r.
Qed.

(** X4 at one input: user 7, a team member of domain 2. *)
Lemma team_member_may_select_shared_domain :
  let env := Sample.world Sample.offline Sample.accept in
  let row := {| row_domain := Sample.shared; row_validated := true |} in
  row ∈ Sample.domains
  /\ row_validated row = true
  /\ EntityForm.clean_domain env 7
       {| cd_name := Some "sp"; cd_domain := Some Sample.shared |}
     = Ok (Some Sample.shared).
Proof.
  intros env row.
  apply (selectable_domain_passes_clean_domain env 7 Sample.domains row
           (Some "sp")).
  vm_compute. apply list_elem_of_In. right. left. reflexivity.
Defined.

(** ** What cleaning keeps *)

Lemma same_form_refl st : same_form st st.
Proof. done. Qed.

Lemma world_kept_refl st : world_kept st st.
Proof.
  split_and!; try done. exists []. split_and!.
  - by rewrite app_nil_r.
  - simpl. lia.
  - constructor.
Qed.

Lemma world_kept_one_request st url :
  world_kept st (add_request (url, None, CONNECTION_TIMEOUT) st).
Proof.
  split_and!; try done. exists [(url, None, CONNECTION_TIMEOUT)].
  split_and!; [done | simpl; lia | by repeat constructor].
Qed.

Lemma world_kept_two_requests st url url' :
  world_kept st
    (add_request (url', None, CONNECTION_TIMEOUT)
       (add_request (url, None, CONNECTION_TIMEOUT) st)).
Proof.
  split_and!; try done.
  exists [(url, None, CONNECTION_TIMEOUT); (url', None, CONNECTION_TIMEOUT)].
  split_and!; [simpl; by rewrite <- app_assoc | simpl; lia
              | by repeat constructor].
Qed.

Lemma file_method_world_kept r st :
  world_kept st (snd (MetadataFileEditForm._field_value_to_metadata r st)).
Proof.
  split_and!; try done.
  - intros r'. simpl. unfold insert, fn_insert.
    repeat destruct (decide _); subst; done.
  - exists []. split_and!; [by rewrite app_nil_r | simpl; lia | constructor].
Qed.

(** The three overriding methods assign nothing on the form, and keep
    the world around it. *)
Lemma method_of_keeps env form v st :
  same_form st (snd (method_of env form v st))
  /\ world_kept st (snd (method_of env form v st)).
Proof.
  destruct form; simpl.
  - split; [done|apply world_kept_refl].
  - destruct v as [s|s|r]; simpl;
      [split; [done|apply world_kept_refl]..|].
    split; [done|apply file_method_world_kept].
  - destruct v as [url|url|r]; simpl;
      [| |split; [done|apply world_kept_refl]];
      destruct (remote_requests env url st) as [-> | ->];
      (split; [done|]);
      auto using world_kept_one_request, world_kept_two_requests.
Qed.

(** Every run of a [clean_<field>] method ends in one of two ways. *)
Lemma clean_metadata_outcome env form st :
  exists st1,
    same_form st st1 /\ world_kept st st1
    /\ ((exists e, clean_metadata env form st = (Raise e, st1))
        \/ (exists raw m,
              cleaned_data st !! field_of form = Some raw
              /\ truthy (files st1) m = true
              /\ py_eq (get_revision (entity st)) m = false
              /\ clean_metadata env form st
                 = (Ok (stripped raw),
                    set_metadata (Some m)
                      match validate env (entity st) m (user st) with
                      | [] => st1
                      | _ :: _ =>
                          set_cleaned_data
                            (delete (field_of form) (cleaned_data st))
                            (set_errors
                               (<[field_of form :=
                                    validate env (entity st) m (user st)]>
                                  (_errors st))
                               st1)
                      end))).
Proof.
  destruct (cleaned_data st !! field_of form) as [raw|] eqn:Hfield.
  2:{ exists st. split_and!; [done|apply world_kept_refl|]. left.
      rewrite clean_metadata_unfold. eexists. by apply clean_field_missing. }
  destruct (truthy (files st) (stripped raw)) eqn:Hvalue.
  2:{ exists st. split_and!; [done|apply world_kept_refl|]. left.
      rewrite clean_metadata_unfold. eexists.
      by eapply clean_field_empty_value. }
  destruct (method_of_keeps env form (stripped raw) st) as [Hform Hworld].
  destruct (method_of env form (stripped raw) st) as [[m|e] st1] eqn:Hmethod;
    simpl in Hform, Hworld; exists st1; (split_and!; [done|done|]).
  2:{ left. rewrite clean_metadata_unfold. eexists.
      by eapply clean_field_method_raises. }
  destruct (truthy (files st1) m) eqn:Hm.
  2:{ left. rewrite clean_metadata_unfold. eexists.
      unfold BaseMetadataEditForm._clean_metadata_field, mbind, M_bind,
        cleaned_data_getitem, py_not, gets, validation_error, raise,
        stripped in *.
      rewrite Hfield. simpl. rewrite Hvalue. simpl. rewrite Hmethod, Hm.
      reflexivity. }
  destruct (py_eq (get_revision (entity st)) m) eqn:Heq.
  { left. eexists. by eapply submission_unchanged. }
  right. exists raw, m. split_and!; [done..|].
  destruct (validate env (entity st) m (user st)) as [|x errs] eqn:Hv.
  - destruct Hworld as (He & Hu & _).
    rewrite clean_metadata_unfold.
    eapply clean_field_validated; eauto; by rewrite ?He, ?Hu.
  - rewrite <- Hv. eapply submission_invalid; eauto. by rewrite Hv.
Qed.

Lemma clean_metadata_accepted env form st raw m st1 :
  cleaned_data st !! field_of form = Some raw ->
  truthy (files st) (stripped raw) = true ->
  method_of env form (stripped raw) st = (Ok m, st1) ->
  truthy (files st1) m = true ->
  py_eq (get_revision (entity st)) m = false ->
  validate env (entity st) m (user st) = [] ->
  let outcome := clean_metadata env form st in
  fst outcome = Ok (stripped raw)
  /\ BaseMetadataEditForm.get_metadata (snd outcome) = Some m
  /\ cleaned_data (snd outcome) = cleaned_data st
  /\ _errors (snd outcome) = _errors st.
Proof.
  intros Hfield Hvalue Hmethod Hm Heq Hv outcome. subst outcome.
  destruct (submission_frame env form st raw m st1 Hmethod)
    as (He & Hu & Hc & Hr).
  rewrite clean_metadata_unfold.
  rewrite (clean_field_validated env _ _ st raw m st1)
    by first [done | by rewrite ?He, ?Hu].
  done.
Qed.

(** X5: in each of the three subclasses, when the field value and the
    metadata made from it are not empty, the metadata differs from the
    current revision and the validator returns no error, the cleaning
    method returns the stripped field value, [get_metadata()] returns the
    new metadata, and [cleaned_data] and [_errors] are as before. *)
Theorem accepted_submission_staged env form st raw m st1 :
  cleaned_data st !! field_of form = Some raw ->
  truthy (files st) (stripped raw) = true ->
  method_of env form (stripped raw) st = (Ok m, st1) ->
  truthy (files st1) m = true ->
  py_eq (get_revision (entity st)) m = false ->
  validate env (entity st) m (user st) = [] ->
  let outcome := clean_metadata env form st in
  fst outcome = Ok (stripped raw)
  /\ BaseMetadataEditForm.get_metadata (snd outcome) = Some m
  /\ cleaned_data (snd outcome) = cleaned_data st
  /\ _errors (snd outcome) = _errors st.
Proof.
  intros Hfield Hvalue Hmethod Hm Heq Hv outcome. subst outcome.
  destruct (submission_frame env form st raw m st1 Hmethod)
    as (He & Hu & Hc & Hr).
  rewrite clean_metadata_unfold.
  rewrite (clean_field_validated env _ _ st raw m st1)
    by first [done | by rewrite ?He, ?Hu].
  done.
Qed.

(** X5 at one input: new text pasted with blanks around it. *)
Lemma new_text_accepted :
  let env := Sample.world Sample.offline Sample.accept in
  let st :=
    Sample.form Sample.idp {[ "metadata_text" := PUnicode " <new/> " ]}
      Sample.no_files in
  let outcome := clean_metadata env TextForm st in
  fst outcome = Ok (PUnicode "<new/>")
  /\ BaseMetadataEditForm.get_metadata (snd outcome) = Some (PUnicode "<new/>")
  /\ cleaned_data (snd outcome) = cleaned_data st
  /\ _errors (snd outcome) = _errors st.
Proof.
  intros env st outcome.
  apply (accepted_submission_staged env TextForm st (PUnicode " <new/> ")
           (PUnicode "<new/>") st); reflexivity.
Defined.

(** X6: in each of the three subclasses, whenever the cleaning method
    raises, whatever the exception, [self.metadata], [cleaned_data] and
    [_errors] are what they were before the call. *)
Theorem failed_cleaning_stages_nothing env form st e :
  fst (clean_metadata env form st) = Raise e ->
  same_form st (snd (clean_metadata env form st)).
Proof.
  destruct (clean_metadata_outcome env form st)
    as (st1 & Hform & _ & [[e' ->] | (raw & m & _ & _ & _ & ->)]); [done|].
  discriminate.
Qed.

(** X6 at one input: a URL that cannot be fetched. *)
Lemma unreachable_url_stages_nothing :
  let env := Sample.world Sample.offline Sample.accept in
  let st :=
    Sample.form Sample.idp {[ "metadata_url" := PUnicode "example.org" ]}
      Sample.no_files in
  let outcome := clean_metadata env RemoteForm st in
  metadata (snd outcome) = None
  /\ cleaned_data (snd outcome) = {[ "metadata_url" := PUnicode "example.org" ]}
  /\ _errors (snd outcome) = ∅.
Proof.
  intros env st outcome.
  apply (failed_cleaning_stages_nothing env RemoteForm st
           (Exn ValidationError "Unknown error while fetching the url")).
  reflexivity.
Defined.

(** X7: in each of the three subclasses, whenever the cleaning method
    returns, it returns the stripped field value, and the metadata that
    [get_metadata()] then yields is not empty and differs ([==]) from the
    current revision of the entity; this holds also when the validator
    reported errors. *)
Theorem staged_metadata_not_empty_and_new env form st data :
  fst (clean_metadata env form st) = Ok data ->
  let st' := snd (clean_metadata env form st) in
  exists raw m,
    cleaned_data st !! field_of form = Some raw
    /\ data = stripped raw
    /\ BaseMetadataEditForm.get_metadata st' = Some m
    /\ truthy (files st') m = true
    /\ py_eq (get_revision (entity st)) m = false.
Proof.
  destruct (clean_metadata_outcome env form st)
    as (st1 & _ & _ & [[e ->] | (raw & m & Hfield & Hm & Heq & ->)]);
    [discriminate|].
  simpl. intros [= <-]. exists raw, m. split_and!; try done.
  by destruct (validate env (entity st) m (user st)).
Qed.

(** X7 at one input: an upload that the validator rejects. *)
Lemma staged_upload_not_empty_and_new :
  let env := Sample.world Sample.offline Sample.reject in
  let st :=
    Sample.form Sample.idp {[ "metadata_file" := PFile 0 ]}
      (Sample.upload "idp.xml" "<new/>") in
  let st' := snd (clean_metadata env FileForm st) in
  exists raw m,
    cleaned_data st !! "metadata_file" = Some raw
    /\ PFile 0 = stripped raw
    /\ BaseMetadataEditForm.get_metadata st' = Some m
    /\ truthy (files st') m = true
    /\ py_eq (PStr "<old/>") m = false.
Proof.
  intros env st st'.
  apply (staged_metadata_not_empty_and_new env FileForm st (PFile 0)).
  reflexivity.
Defined.

Lemma clean_metadata_world env form st :
  world_kept st (snd (clean_metadata env form st)).
Proof.
  destruct (clean_metadata_outcome env form st)
    as (st1 & _ & Hworld & [[e ->] | (raw & m & _ & _ & _ & ->)]); [done|].
  simpl. by destruct (validate env (entity st) m (user st)).
Qed.

(** X8: in each of the three subclasses, however the cleaning method
    ends, the entity and the user of the form are the same, every uploaded
    file has the name and content it had, and the requests made are the
    earlier ones followed by at most two new ones, each without data and
    with the timeout CONNECTION_TIMEOUT; the text and file forms make no
    request. *)
Theorem cleaning_keeps_the_world env form st :
  world_kept st (snd (clean_metadata env form st))
  /\ (form <> RemoteForm ->
      requests (snd (clean_metadata env form st)) = requests st).
Proof.
  split; [apply clean_metadata_world|].
  - intros Hform.
    assert (Hmethod : forall v,
      requests (snd (method_of env form v st)) = requests st).
    { intros v. destruct form; [done| |done]. by destruct v. }
    rewrite clean_metadata_unfold.
    unfold BaseMetadataEditForm._clean_metadata_field, mbind, M_bind,
      cleaned_data_getitem, py_not, gets, validation_error, raise.
    destruct (cleaned_data st !! field_of form) as [raw|]; [|done]. simpl.
    destruct (truthy (files st) _); [|done]. simpl.
    specialize (Hmethod (if hasattr_strip raw then strip raw else raw)).
    destruct (method_of env form _ st) as [[m|e] st1]; [|done].
    simpl in Hmethod. destruct (truthy (files st1) m); [|done]. simpl.
    unfold check_metadata_is_new.
    destruct (py_eq _ m); [done|]. simpl.
    unfold check_metadata_is_valid.
    destruct (validate env (entity st1) m (user st1)); [done|].
    unfold mbind, M_bind, modify, del_cleaned_data. simpl.
    by destruct (cleaned_data st1 !! field_of form).
Qed.

(** ** The uploaded file *)

(** X9: MetadataFileEditForm._field_value_to_metadata leaves the file
    with its name and content and the read position at 0, touches no other
    file, returns the whole content when the position was 0, and in any
    case returns the whole content when called again. *)
Theorem upload_read_twice r st :
  let content := file_content (files st r) in
  let run1 := MetadataFileEditForm._field_value_to_metadata r st in
  let run2 := MetadataFileEditForm._field_value_to_metadata r (snd run1) in
  files (snd run1) r = FileObj (file_name (files st r)) content 0
  /\ (forall r', r' <> r -> files (snd run1) r' = files st r')
  /\ fst run2 = Ok (PStr content)
  /\ (file_pos (files st r) = 0 -> fst run1 = Ok (PStr content)).
Proof.
  simpl. unfold insert, fn_insert. split_and!.
  - by repeat destruct (decide _).
  - intros r' Hne. by repeat destruct (decide _).
  - repeat destruct (decide _); try done. simpl.
    by rewrite drop_0, String.string_of_list_ascii_of_string.
  - intros H. by rewrite H, drop_0, String.string_of_list_ascii_of_string.
Qed.

(** ** The retry *)

(** X10: when the request for the URL as given raises an exception that
    is neither a URLError nor an HTTPError, and the request for 'http://' +
    URL gets a 200 response without a content-type header,
    MetadataRemoteEditForm._field_value_to_metadata returns the body of
    that response, after exactly these two requests. *)
Theorem retry_with_scheme_succeeds env remote_url st e resp :
  net env remote_url None CONNECTION_TIMEOUT = Raise e ->
  general_error e ->
  net env ("http://" +:+ remote_url) None CONNECTION_TIMEOUT = Ok resp ->
  getcode resp = Some 200%Z ->
  headers resp !! "content-type" = None ->
  let outcome :=
    MetadataRemoteEditForm._field_value_to_metadata env remote_url st in
  fst outcome = Ok (PStr (body resp))
  /\ requests (snd outcome)
     = requests st ++ [(remote_url, None, CONNECTION_TIMEOUT);
                       ("http://" +:+ remote_url, None, CONNECTION_TIMEOUT)].
Proof.
  intros H1 H2%general_error_not_url H3 H4 H5 outcome. subst outcome.
  erewrite remote_retry by (by erewrite fetch_general_error).
  erewrite fetch_no_content_type by done. simpl.
  by rewrite <- app_assoc.
Qed.

(** X10 at one input: a URL typed without its scheme. *)
Lemma bare_hostname_fetched_on_retry :
  let resp := Sample.xml_response None "<new/>" in
  let env :=
    Sample.world (Sample.serves "http://idp.example.org/md" resp)
      Sample.accept in
  let st := Sample.form Sample.idp ∅ Sample.no_files in
  let outcome :=
    MetadataRemoteEditForm._field_value_to_metadata env "idp.example.org/md"
      st in
  fst outcome = Ok (PStr "<new/>")
  /\ requests (snd outcome)
     = [("idp.example.org/md", None, 10%Z);
        ("http://idp.example.org/md", None, 10%Z)].
Proof.
  intros resp env st outcome.
  apply (retry_with_scheme_succeeds env "idp.example.org/md" st
           (Exn ValueError "unknown url type: idp.example.org/md") resp);
    [reflexivity | split; reflexivity | reflexivity | reflexivity
    | reflexivity].
Defined.

(** ** Saving *)

Lemma utf8_char_ascii c : (N_of_ascii c <? 128)%N = true -> utf8_char c = [c].
Proof. intros H. unfold utf8_char. by rewrite H. Qed.

Lemma utf8_ascii s : is_ascii s = true -> utf8 s = s.
Proof.
  unfold utf8, is_ascii. intros H.
  rewrite <- (String.string_of_list_ascii_of_string s) at 2. f_equal.
  induction (String.list_ascii_of_string s) as [|c l IH]; [done|].
  cbn [forallb] in H. apply andb_prop in H as [Hc Hl].
  cbn [flat_map]. rewrite utf8_char_ascii by done. simpl. f_equal. by apply IH.
Qed.

Lemma fileobj_write_fresh name data :
  fileobj_seek (fileobj_write (FileObj name "" 0) data) 0
  = FileObj name data 0.
Proof.
  unfold fileobj_seek, fileobj_write. simpl. rewrite drop_nil.
  change ("" +:+ data +:+ "") with (data +:+ "").
  by rewrite append_empty_r.
Qed.

Section Save.
Context (ext : collaborators) (form : metadata_form) (self : state).
Context (log : list effect).

Lemma save_commits_staged_metadata m data message commit_msg :
  metadata self = Some m ->
  encode_utf8 m = Ok data ->
  cleaned_data self !! ("commit_msg_" +:+ type_of form) = Some message ->
  encode_utf8 message = Ok commit_msg ->
  save_of ext form self log
  = (Ok tt,
     log ++ [MetadataSave (metadata_name ext (entity self))
               (FileObj (tmp_name ext) data 0)
               (authorname ext (user self)) commit_msg;
             EntitySave (entity self)]).
Proof.
  intros Hm Hd Hc He.
  unfold save_of, BaseMetadataEditForm.save, mbind, Saving_bind, attempt, call.
  rewrite Hm, Hd, Hc, He, fileobj_write_fresh. simpl.
  by rewrite <- app_assoc.
Qed.
End Save.

(** X11: on a form whose staged metadata is a text and whose cleaned data
    hold the commit message of its type as a text, [save()] returns
    normally after exactly two calls: [entity.metadata.save] with the name
    of the metadata file, a rewound temporary file holding the UTF-8
    encoding of the metadata, the author name of the user and the UTF-8
    encoding of the commit message, then [entity.save()].  ASCII metadata
    is written byte for byte. *)
Theorem save_commits_staged_text ext form self m message log :
  metadata self = Some (PUnicode m) ->
  cleaned_data self !! ("commit_msg_" +:+ type_of form)
  = Some (PUnicode message) ->
  save_of ext form self log
  = (Ok tt,
     log ++ [MetadataSave (metadata_name ext (entity self))
               (FileObj (tmp_name ext) (utf8 m) 0)
               (authorname ext (user self)) (utf8 message);
             EntitySave (entity self)])
  /\ (is_ascii m = true -> utf8 m = m).
Proof.
  intros Hm Hc. split; [|apply utf8_ascii].
  by eapply save_commits_staged_metadata.
Qed.

(** X11 at one input: fetched metadata on a remote form. *)
Lemma fetched_text_saved :
  let self :=
    State Sample.idp 7 (Some (PUnicode "<new/>"))
      {[ "commit_msg_remote" := PUnicode "import" ]} ∅ Sample.no_files [] in
  save_of Sample.ext RemoteForm self []
  = (Ok tt,
     [MetadataSave "idp.xml" (FileObj "/tmp/tmpA1" "<new/>" 0) "Ada" "import";
      EntitySave Sample.idp]).
Proof.
  intros self.
  destruct (save_commits_staged_text Sample.ext RemoteForm self "<new/>"
              "import" []) as [H _]; [reflexivity | reflexivity |].
  exact H.
Defined.



(** X13: when [clean_metadata_text] has accepted a pasted text, [save()]
    on any later state of the form that still has the staged metadata, the
    entity and the user, and whose cleaned data hold a commit message,
    commits the pasted text without its surrounding whitespace, UTF-8
    encoded. *)
Theorem cleaned_text_is_what_save_commits env ext st text message later log :
  cleaned_data st !! "metadata_text" = Some (PUnicode text) ->
  let new_metadata := strip_chars unicode_isspace text in
  nonempty new_metadata = true ->
  py_eq (get_revision (entity st)) (PUnicode new_metadata) = false ->
  validate env (entity st) (PUnicode new_metadata) (user st) = [] ->
  let st' := snd (MetadataTextEditForm.clean_metadata_text env st) in
  metadata later = metadata st' ->
  entity later = entity st' ->
  user later = user st' ->
  cleaned_data later !! "commit_msg_text" = Some (PUnicode message) ->
  save_of ext TextForm later log
  = (Ok tt,
     log ++ [MetadataSave (metadata_name ext (entity st))
               (FileObj (tmp_name ext) (utf8 new_metadata) 0)
               (authorname ext (user st)) (utf8 message);
             EntitySave (entity st)]).
Proof.
  intros Hfield new_metadata Hne Heq Hv st' Hlm Hle Hlu Hmsg. subst st'.
  change (MetadataTextEditForm.clean_metadata_text env st)
    with (clean_metadata env TextForm st) in *.
  destruct (clean_metadata_accepted env TextForm st (PUnicode text)
              (PUnicode new_metadata) st) as (_ & Hm & _); try done.
  pose proof (save_commits_staged_metadata ext TextForm later log
                (PUnicode new_metadata) (utf8 new_metadata)
                (PUnicode message) (utf8 message)) as Hsave.
  unfold BaseMetadataEditForm.get_metadata in Hm.
  pose proof (clean_metadata_world env TextForm st) as (He & Hu & _).
  rewrite Hle, Hlu, He, Hu in Hsave. apply Hsave; [congruence | done..].
Qed.

(** X13 at one input: the commit message arrives in the cleaned data after
    the metadata field has been cleaned. *)
Lemma pasted_text_saved_stripped :
  let env := Sample.world Sample.offline Sample.accept in
  let st :=
    Sample.form Sample.idp {[ "metadata_text" := PUnicode " <new/> " ]}
      Sample.no_files in
  let st' := snd (MetadataTextEditForm.clean_metadata_text env st) in
  let later :=
    set_cleaned_data
      (<["commit_msg_text" := PUnicode "update"]> (cleaned_data st')) st' in
  save_of Sample.ext TextForm later []
  = (Ok tt,
     [MetadataSave "idp.xml" (FileObj "/tmp/tmpA1" "<new/>" 0) "Ada" "update";
      EntitySave Sample.idp]).
Proof.
  intros env st st' later.
  apply (cleaned_text_is_what_save_commits env Sample.ext st " <new/> "
           "update" later []); reflexivity.
Defined.
